(** * ULAB_FRBs.ipynb: the notebook, its cells and what running them does

    The repository consists of one Jupyter notebook, [ULAB_FRBs.ipynb].
    This development embeds the file byte for byte, reads it with a JSON
    reader, extracts the cells as the notebook format lays them out, and
    gives the code cells the line-level reading that the Python 3.8 kernel
    named in the notebook's metadata gives them: a line is blank, a comment,
    an import statement, an IPython special line, or something else.

    Layout:
    - [Source]    the text of the file;
    - [Json]      a reader for RFC 8259 JSON text;
    - [Nbformat]  cells of a notebook document and the nbformat 4 shape;
    - [Python]    tokens, line kinds and import statements;
    - [Kernel]    running code cells against a namespace;
    - [Markdown]  inline images of a markdown cell;
    - the properties of the notebook. *)

From Stdlib Require Import String Ascii List Bool Arith ZArith Lia.
From stdpp Require Import gmap strings list.
Import ListNotations.
Local Open Scope string_scope.

(** ** The file *)

Module Source.

(** Characters that a string literal of this file cannot hold, by code. *)
Definition dquote : ascii := ascii_of_nat 34.
Definition newline : ascii := ascii_of_nat 10.

(** The file has no backtick in it, so the lines are written here with a
    backtick wherever the file has a double quote, and [unquote] puts the
    double quotes back. Backslashes are
    the file's own: a backslash followed by [n] is two bytes of the file. *)
Definition backtick : ascii := "`"%char.

Fixpoint unquote (s : string) : string :=
  match s with
  | EmptyString => EmptyString
  | String c r => String (if Ascii.eqb c backtick then dquote else c) (unquote r)
  end.

Fixpoint join_lines (ls : list string) : string :=
  match ls with
  | [] => EmptyString
  | [l] => l
  | l :: r => l +:+ String newline (join_lines r)
  end.

(** The 271 lines of [src/ULAB_FRBs.ipynb]; the last one has no newline
    after it. *)
Definition notebook_lines : list string :=
  [
    "{";
    " `cells`: [";
    "  {";
    "   `cell_type`: `markdown`,";
    "   `id`: `competent-timeline`,";
    "   `metadata`: {},";
    "   `source`: [";
    "    `## ULAB FRBs\n`,";
    "    `#### Kyle Miller`";
    "   ]";
    "  },";
    "  {";
    "   `cell_type`: `code`,";
    "   `execution_count`: 1,";
    "   `id`: `composed-starter`,";
    "   `metadata`: {},";
    "   `outputs`: [],";
    "   `source`: [";
    "    `# these are useful packages to import for astronomy (typical syntax)\n`,";
    "    `import astropy.units as u\n`,";
    "    `import astropy.constants as c\n`,";
    "    `\n`,";
    "    `# these are typical packages used in jupyter notebooks\n`,";
    "    `import numpy as np\n`,";
    "    `import matplotlib.pyplot as plt\n`,";
    "    `from tqdm import tqdm\n`,";
    "    `\n`,";
    "    `# these are useful packages for science/engineering in general\n`,";
    "    `from scipy import signal\n`,";
    "    `from scipy import integrate\n`,";
    "    `from scipy import fftpack\n`,";
    "    `from scipy import optimize\n`,";
    "    `from scipy import ndimage\n`,";
    "    ` \n`,";
    "    `# this is the package for plasma-related physics (it uses astropy)\n`,";
    "    `from plasmapy import dispersion\n`,";
    "    `from plasmapy import formulary\n`,";
    "    `from plasmapy import simulation\n`,";
    "    `\n`,";
    "    `# to get interactive plots uncomment the \`magic\` line below\n`,";
    "    `# %matplotlib notebook`";
    "   ]";
    "  },";
    "  {";
    "   `cell_type`: `markdown`,";
    "   `id`: `democratic-liver`,";
    "   `metadata`: {},";
    "   `source`: [";
    "    `### Astronomy: gravitation and electromagnetism\n`,";
    "    `\n`,";
    "    `In this quick introduction to astronomical research it would be good to cover the basic physics before moving into the particulars of radio astronomy and fast radio bursts (FRBs). Often in physics the universe is portrayed as a soup of quantum particles that do strange quantum things and somehow build up into what is observed in nature. This is typically called *reductionism* in the philosophical parlance. However, there are alternative views like *emergence* where lots of smaller things can become other bigger things with there own behaviors and laws. In classical physics the \`three-body problem\` makes analytical (pen and paper) solutions mostly impossible for any system with 3+ bodies, like the Sun, Earth and moon. Whereas in quantum mechanics and relativity calculating systems with more than 2 particles results in a similar impasse. Usually the way around this is going to numerical solutions and methods, which basically means using the computer to do the calculations!\n`,";
    "    `\n`,";
    "    `For astronomers—with the exception for stellar fusion, quantum line emissions, and a few high-energy processes like the big bang—the majority of the physics is gravitation and electromagnetism (plus the majority of the *quantized* emission spectra, like the rotational and vibrational transisitions of radio astronomy, is typically found experimentally not theoretically, with the major exception being 21cm neutral hydrogen spin-flip transition, which you will encounter if you take quantum physics!). These two areas of physics have a lot in common, e.g., in CGS units astronomers tend to use\n`,";
    "    `\n`,";
    "    `$$ F_{G} = \\frac{G m_1 m_2}{r^2} \\;\\; \\& \\;\\; F_{EM} = \\frac{q_1 q_2}{r^2}, $$\n`,";
    "    `\n`,";
    "    `where the \`charge\` ($q_i$ for electromagnetism) of gravity is typically mass, $m_i$, but could be energy $E = \\gamma m c^2$, and $r$ is the radial distance between the charges; although they are typically compared by strength: the ratio of the gravitational to electromagnetic force **for particles** is on the order of $\\sim 10^{42}$, with gravity being the lesser. For astronomical bodies, however, gravitation is often playing the larger role. Magnetic fields, which are harder to observe than massive (hot) things, are often neglected (especially in undergraduate classes). Radio astronomy is probably the best tool for visualizing magnetic fields outside of the solar system for a variety of reasons—but mostly because of the way electromagnetic (radio) waves propagate through regions with magnetic fields (spectral line splitting, i.e., the Zeeman effect, and a few other techniques like polarization can be used in certain cases at other wavebands).\n`,";
    "    `\n`,";
    "    `If you have completed the $5/7$ series or equivalent you probably have seen Maxwell's equations. These come up in an area of astronomy called magnetohydrodynamics where they are combined with the equations of fluids, which typically includes gravity, to produce a system of equations that can be used to model plasma and other astrophysical objects like accretion disks. This is a very involved field—but is much easier than trying to solve Schrodinger's equation for zillions of particles—so the important results and tools like dispersion relations will be covered below without any derivations, just hand wavy arguments and pictures (observational astronomers, like Faraday, typically think about magnetic fields as *lines of force* anyways). The prototypical image of dispersion is the prism and there is also an image of magnetic field lines in radio-loud galaxy Centarus A\n`,";
    "    `\n`,";
    "    `![prism](images/prism.jpeg)\n`,";
    "    `\n`,";
    "    `![cenA](images/cenA.png)`";
    "   ]";
    "  },";
    "  {";
    "   `cell_type`: `markdown`,";
    "   `id`: `signed-minneapolis`,";
    "   `metadata`: {},";
    "   `source`: [";
    "    `(images from: https://www.cyberphysics.co.uk/topics/light/dispersion.htm and https://www.sofia.usra.edu/publications/science-results-archive/warped-magnetic-field-centaurus). Of course, radio waves are not as colorful altough they can make sounds! Thunderstorms are very bright sources of radio waves and actually power a resonance in the Earth's atmosphere that pulsates at around $7$ Hz; the FRBs are much more energetic and are typically oscillating around $1$ GHz (for comparison, Wi-Fi and microwave ovens operate around $2.4/5$ GHz).\n`,";
    "    `\n`,";
    "    `\n`,";
    "    `The most important physics for FRBs and radio astronomy, at the basic level, will be the concepts of luminosity and flux density. Luminosity, $L$, is basically a pseudonym for power or $E/t$ (energy/time). For a black body (an object in thermal equilibrium, i.e., roughly the same temperature as its surroundings) the luminosity is given by the Steffan-Boltzmann equation\n`,";
    "    `\n`,";
    "    `$$ L = 4\\pi r_*^2 \\sigma T^4$$\n`,";
    "    `\n`,";
    "    `where $r_*$ is the radius of the object, $\\sigma$ is the Steffan-Boltzmann constant, and $T$ is the temperature of the object. The flux density then is is defined as \n`,";
    "    `\n`,";
    "    `$$ F = \\frac{L}{4\\pi r_{path}^2 } $$\n`,";
    "    `\n`,";
    "    `which is essentailly luminosity/surface area with $r_{path}$ being the path of a given ray being emitted from the luminous object (usually assumed to be a black body). Stars, for example, are not perfect black bodies, but they are close enough that there \`surface\` temperature (the photosphere) is used as an \`effective\` temperature ($T_\\odot \\approx 5777 $) for the equation above and the results are in generally good agreement with observations. The following image shows the difference between a perfect blackbody and the Sun's actualy spectrum.\n`,";
    "    `\n`,";
    "    `![](images/sun_spectrum.png)\n`,";
    "    `\n`,";
    "    `Image source: [https://physics.stackexchange.com/questions/130209/how-can-it-be-that-the-sun-emits-more-than-a-black-body](https://physics.stackexchange.com/questions/130209/how-can-it-be-that-the-sun-emits-more-than-a-black-body).\n`,";
    "    `\n`,";
    "    `The Steffan-Boltzman law above comes from integrating the Planck black body formula\n`,";
    "    `\n`,";
    "    `$$ B(\\nu, T) = \\frac{2 h \\nu^3 }{c^2} \\frac{1}{e^{h \\nu / k_B T} - 1 } $$\n`,";
    "    `\n`,";
    "    `over all frequencies, $\\nu$. $h$ is Planck's constant, $k_B$ is Boltzmann's constant, and $c$ is the speed of light. For radio astronomy, at relatively low frequencies, this formula can be simplified with a Taylor series approximation for the exponential. This is known as the Rayleigh-Jeans limit. When $h\\nu \\ll k_B T$ the exponential can be approximated as\n`,";
    "    `\n`,";
    "    `$$ e^{h \\nu / k_B T} \\approx 1 + \\frac{h \\nu}{k_B T}$$\n`,";
    "    `\n`,";
    "    `and then the two ones cancel out yielding the following (approximate) formula\n`,";
    "    `\n`,";
    "    `$$ B(\\nu, T) = \\frac{2 h \\nu^2 k_B T_B }{c^2} $$\n`,";
    "    `\n`,";
    "    `where the temperature is known as the \`brightness temperature\` $T_B$. This allows radio astronomers to get an approximate temperature for objects based on the flux recived, *if the object is in thermodynamic equilibrium*. Anything in a spectrum from an object that is not like a black body curve means there is non-thermal emission. For optical observations this generally means spectral lines; for x-ray and $\\gamma$-ray there are high-energy events like supernovae that are not thermalized; and for radio there are free-free radiation and synchrontron radiation that actually get more intense as frequency goes down! (This is the exact opposite of a black body.)\n`,";
    "    `\n`,";
    "    `\n`,";
    "    `![](images/spectrums.jpg)`";
    "   ]";
    "  },";
    "  {";
    "   `cell_type`: `code`,";
    "   `execution_count`: null,";
    "   `id`: `protective-shopping`,";
    "   `metadata`: {},";
    "   `outputs`: [],";
    "   `source`: [";
    "    `# types of radation mechanisms\n`,";
    "    `\n`,";
    "    `# thermal blackbody and scattering\n`,";
    "    `\n`,";
    "    `# synchrontron and gyro radiation\n`,";
    "    `\n`,";
    "    `# free-free \`braking\` emission\n`,";
    "    `\n`,";
    "    `# molecular lines (masers)\n`,";
    "    `\n`,";
    "    `# atomic lines (lasers)\n`,";
    "    `\n`,";
    "    `# recombination radiation (HII regions)`";
    "   ]";
    "  },";
    "  {";
    "   `cell_type`: `markdown`,";
    "   `id`: `mysterious-booth`,";
    "   `metadata`: {},";
    "   `source`: [";
    "    `at the higher level the [inverse square laws](https://en.wikipedia.org/wiki/Inverse-square_law) above are replaced with *fields* and take the form\n`,";
    "    `\n`,";
    "    `$$ \\mathbf{F_{G}} = m \\left( \\mathbf{E_{G}} + \\mathbf{v} \\times \\mathbf{B_{G}} \\right)\\;\\; \\& \\;\\; \\mathbf{F_{EM}} = q \\left( \\mathbf{E} + \\mathbf{v} \\times \\mathbf{B} \\right)$$\n`,";
    "    `\n`,";
    "    `where the electric field is $\\mathbf{E_i}$, magnetic field is $\\mathbf{B_i}$, and $\\mathbf{E_{G}}$ is the gravitational field and $\\mathbf{B_{G}}$ is the \`gravitomagnetic\` field; these can be compared to the more \`fundamental\` $\\mathbf{F} = m \\mathbf{a}$. These laws are quite exact; in astrophysics, the level of exactness required can vary quite a bit depending on the precision of the observations, usually $\\mathbf{B_{G}}$ can only be measured in the regions around extremly massive, compact objects like black holes and neutron stars, although it has been measured in the vicinity of the Earth. Both of the sets of fields are theoretically derived from the theory of relativity.\n`,";
    "    `\n`,";
    "    `For spectral lines, high precision is key to Doppler shifts, however, very often this requirement is relaxed and scaling relations are used instead to get a feeling for how things work. This \`order of magnitude\` thinking is a great skill to have in your back pocket in case you ever need to do a \`back of the envelope\` calculation. Instead of an equals sign or even an approximate sign the tilda or twiddle is used (if units are left out a proportionality sign should be used). In radio astronomy the Rayleigh-Jeans approximation is very useful\n`,";
    "    `\n`,";
    "    `compared to the more accurate Planck black body formula for objects in thermal equilibrium. \n`,";
    "    `\n`,";
    "    `FRB scaling relations, plasma scaling relations, magnetic field scaling relations, cosmological scaling relations, etc.`";
    "   ]";
    "  },";
    "  {";
    "   `cell_type`: `markdown`,";
    "   `id`: `shared-priest`,";
    "   `metadata`: {},";
    "   `source`: [";
    "    `Beta\n`,";
    "    `Reynolds Number\n`,";
    "    `Magnetic Reynolds Number\n`,";
    "    `\n`,";
    "    `FRB like intergalactic aurora`";
    "   ]";
    "  },";
    "  {";
    "   `cell_type`: `code`,";
    "   `execution_count`: 1,";
    "   `id`: `ideal-holly`,";
    "   `metadata`: {},";
    "   `outputs`: [],";
    "   `source`: [";
    "    `#ariawazhere`";
    "   ]";
    "  },";
    "  {";
    "   `cell_type`: `markdown`,";
    "   `id`: `binary-colony`,";
    "   `metadata`: {},";
    "   `source`: [";
    "    `## Plasma`";
    "   ]";
    "  },";
    "  {";
    "   `cell_type`: `code`,";
    "   `execution_count`: 2,";
    "   `id`: `bfa91d73`,";
    "   `metadata`: {},";
    "   `outputs`: [],";
    "   `source`: [";
    "    `# basic plasma \n`,";
    "    `\n`,";
    "    `# plasma parameter space\n`,";
    "    `\n`,";
    "    `# Debye length (Debye-Huckle potential)\n`,";
    "    `\n`,";
    "    `# dispersion relations (types of waves)\n`,";
    "    `Different plane waves have different propogation velocities\n`";
    "   ]";
    "  },";
    "  {";
    "   `cell_type`: `markdown`,";
    "   `id`: `better-opinion`,";
    "   `metadata`: {},";
    "   `source`: [";
    "    `Example of radio wave dispersion \n`,";
    "    `\n`,";
    "    `![pcloud](images/plasma-cloud-diagram.jpg)\n`,";
    "    `\n`,";
    "    `(image source: https://skyandtelescope.org/astronomy-news/twinkling-quasar-hints-at-mysterious-nearby-plasma-cloud/)`";
    "   ]";
    "  },";
    "  {";
    "   `cell_type`: `markdown`,";
    "   `id`: `german-posting`,";
    "   `metadata`: {},";
    "   `source`: [";
    "    `## Radio Astronomy`";
    "   ]";
    "  },";
    "  {";
    "   `cell_type`: `code`,";
    "   `execution_count`: 1,";
    "   `id`: `instant-constitutional`,";
    "   `metadata`: {},";
    "   `outputs`: [],";
    "   `source`: [";
    "    `# single dish and interferometry (angular resolution)\n`,";
    "    `\n`,";
    "    `# fourier transforms for interferometry and spectrometry\n`,";
    "    `\n`,";
    "    `# FRB-specific telescopes and 21cm surveys`";
    "   ]";
    "  },";
    "  {";
    "   `cell_type`: `markdown`,";
    "   `id`: `forward-elite`,";
    "   `metadata`: {},";
    "   `source`: [";
    "    `## Cosmology`";
    "   ]";
    "  },";
    "  {";
    "   `cell_type`: `code`,";
    "   `execution_count`: null,";
    "   `id`: `mighty-logistics`,";
    "   `metadata`: {},";
    "   `outputs`: [],";
    "   `source`: [";
    "    `# general relativity\n`,";
    "    `\n`,";
    "    `# dispersion relations\n`,";
    "    `\n`,";
    "    `# intergalactic medium`";
    "   ]";
    "  }";
    " ],";
    " `metadata`: {";
    "  `kernelspec`: {";
    "   `display_name`: `Python 3`,";
    "   `language`: `python`,";
    "   `name`: `python3`";
    "  },";
    "  `language_info`: {";
    "   `codemirror_mode`: {";
    "    `name`: `ipython`,";
    "    `version`: 3";
    "   },";
    "   `file_extension`: `.py`,";
    "   `mimetype`: `text/x-python`,";
    "   `name`: `python`,";
    "   `nbconvert_exporter`: `python`,";
    "   `pygments_lexer`: `ipython3`,";
    "   `version`: `3.8.8`";
    "  }";
    " },";
    " `nbformat`: 4,";
    " `nbformat_minor`: 5";
    "}"
  ].

Definition notebook_text : string := join_lines (map unquote notebook_lines).

End Source.

(** ** JSON text (RFC 8259) *)

Module Json.
Local Open Scope nat_scope.

#[local] Unset Elimination Schemes.
(** A number keeps its lexeme: the notebook format only asks whether it is
    an integer, and [as_int] answers that. *)
Inductive json : Type :=
| JNull
| JBool (b : bool)
| JNum (lexeme : string)
| JStr (s : string)
| JArr (elements : list json)
| JObj (members : list (string * json)).
#[local] Set Elimination Schemes.

Definition code (c : ascii) : nat := nat_of_ascii c.

Definition is_ws (c : ascii) : bool :=
  let n := code c in (n =? 32) || (n =? 9) || (n =? 10) || (n =? 13).

Definition is_digit (c : ascii) : bool :=
  let n := code c in (48 <=? n) && (n <=? 57).

Definition hex_value (c : ascii) : option nat :=
  let n := code c in
  if (48 <=? n) && (n <=? 57) then Some (n - 48)
  else if (65 <=? n) && (n <=? 70) then Some (n - 55)
  else if (97 <=? n) && (n <=? 102) then Some (n - 87)
  else None.

Fixpoint skip_ws (s : string) : string :=
  match s with
  | String c r => if is_ws c then skip_ws r else s
  | EmptyString => s
  end.

(** [span p s] splits [s] after its longest prefix of characters in [p]. *)
Fixpoint span (p : ascii -> bool) (s : string) : string * string :=
  match s with
  | String c r =>
      if p c then let '(a, b) := span p r in (String c a, b) else (EmptyString, s)
  | EmptyString => (EmptyString, EmptyString)
  end.

(** The UTF-8 bytes of a code point of the basic plane, for a [\uXXXX]
    escape; a surrogate is encoded on its own, as three bytes. *)
Definition utf8 (n : nat) : string :=
  if n <? 128 then String (ascii_of_nat n) EmptyString
  else if n <? 2048 then
    String (ascii_of_nat (192 + n / 64))
      (String (ascii_of_nat (128 + n mod 64)) EmptyString)
  else
    String (ascii_of_nat (224 + n / 4096))
      (String (ascii_of_nat (128 + (n / 64) mod 64))
         (String (ascii_of_nat (128 + n mod 64)) EmptyString)).

(** The character a one-letter escape stands for. *)
Definition unescape (e : ascii) : option ascii :=
  let n := code e in
  if n =? 34 then Some e                       (* quotation mark *)
  else if n =? 92 then Some e                  (* reverse solidus *)
  else if n =? 47 then Some e                  (* solidus *)
  else if n =? 98 then Some (ascii_of_nat 8)   (* b *)
  else if n =? 102 then Some (ascii_of_nat 12) (* f *)
  else if n =? 110 then Some (ascii_of_nat 10) (* n *)
  else if n =? 114 then Some (ascii_of_nat 13) (* r *)
  else if n =? 116 then Some (ascii_of_nat 9)  (* t *)
  else None.

Definition hex4 (a b c d : ascii) : option nat :=
  match hex_value a, hex_value b, hex_value c, hex_value d with
  | Some x, Some y, Some z, Some w => Some (((x * 16 + y) * 16 + z) * 16 + w)
  | _, _, _, _ => None
  end.

(** The characters of a string after its opening quote, up to and without
    the closing one; the text after it. A control character, a bad escape
    or the end of the text inside the string is an error. *)
Fixpoint parse_chars (s : string) : option (string * string) :=
  match s with
  | EmptyString => None
  | String c r =>
      if code c =? 34 then Some (EmptyString, r)
      else if code c =? 92 then
        match r with
        | EmptyString => None
        | String e r1 =>
            match unescape e with
            | Some ch =>
                match parse_chars r1 with
                | Some (body, rest) => Some (String ch body, rest)
                | None => None
                end
            | None =>
                if code e =? 117 then
                  match r1 with
                  | String h1 (String h2 (String h3 (String h4 r2))) =>
                      match hex4 h1 h2 h3 h4, parse_chars r2 with
                      | Some n, Some (body, rest) => Some (utf8 n +:+ body, rest)
                      | _, _ => None
                      end
                  | _ => None
                  end
                else None
            end
        end
      else if code c <? 32 then None
      else
        match parse_chars r with
        | Some (body, rest) => Some (String c body, rest)
        | None => None
        end
  end.

(** One or more digits. *)
Definition digits1 (s : string) : option (string * string) :=
  match span is_digit s with
  | (EmptyString, _) => None
  | (d, r) => Some (d, r)
  end.

(** number = [ minus ] int [ frac ] [ exp ]; the lexeme and the rest. *)
Definition parse_number (s : string) : option (string * string) :=
  let '(sign, s1) :=
    match s with
    | String c r => if code c =? 45 then (String c EmptyString, r) else (EmptyString, s)
    | EmptyString => (EmptyString, s)
    end in
  match digits1 s1 with
  | None => None
  | Some (int, s2) =>
      let leading_zero :=
        match int with
        | String z (String _ _) => code z =? 48
        | _ => false
        end in
      if leading_zero then None
      else
        let frac :=
          match s2 with
          | String c r =>
              if code c =? 46 then
                match digits1 r with
                | Some (d, r') => Some (String c d, r')
                | None => None
                end
              else Some (EmptyString, s2)
          | EmptyString => Some (EmptyString, s2)
          end in
        match frac with
        | None => None
        | Some (fr, s3) =>
            let exp :=
              match s3 with
              | String c r =>
                  if (code c =? 101) || (code c =? 69) then
                    let '(sg, r1) :=
                      match r with
                      | String g r2 =>
                          if (code g =? 43) || (code g =? 45)
                          then (String g EmptyString, r2) else (EmptyString, r)
                      | EmptyString => (EmptyString, r)
                      end in
                    match digits1 r1 with
                    | Some (d, r') => Some (String c (sg +:+ d), r')
                    | None => None
                    end
                  else Some (EmptyString, s3)
              | EmptyString => Some (EmptyString, s3)
              end in
            match exp with
            | None => None
            | Some (ex, s4) => Some (sign +:+ int +:+ fr +:+ ex, s4)
            end
        end
  end.

(** [strip_prefix p s] is the rest of [s] after [p], when [s] starts with [p]. *)
Fixpoint strip_prefix (p s : string) : option string :=
  match p, s with
  | EmptyString, _ => Some s
  | String a p', String b s' => if Ascii.eqb a b then strip_prefix p' s' else None
  | String _ _, EmptyString => None
  end.

(** One level of the grammar, with the parsers of the levels below as
    arguments: a value, given the parsers of array elements and of object
    members. *)
Definition value_step
    (elements : string -> option (list json * string))
    (members : string -> option (list (string * json) * string))
    (s : string) : option (json * string) :=
  match skip_ws s with
  | EmptyString => None
  | String c r =>
      if code c =? 123 then
        match skip_ws r with
        | String c' r' =>
            if code c' =? 125 then Some (JObj [], r')
            else
              match members r with
              | Some (ms, rest) => Some (JObj ms, rest)
              | None => None
              end
        | EmptyString => None
        end
      else if code c =? 91 then
        match skip_ws r with
        | String c' r' =>
            if code c' =? 93 then Some (JArr [], r')
            else
              match elements r with
              | Some (vs, rest) => Some (JArr vs, rest)
              | None => None
              end
        | EmptyString => None
        end
      else if code c =? 34 then
        match parse_chars r with
        | Some (str, rest) => Some (JStr str, rest)
        | None => None
        end
      else
        match strip_prefix "true" (String c r) with
        | Some rest => Some (JBool true, rest)
        | None =>
            match strip_prefix "false" (String c r) with
            | Some rest => Some (JBool false, rest)
            | None =>
                match strip_prefix "null" (String c r) with
                | Some rest => Some (JNull, rest)
                | None =>
                    match parse_number (String c r) with
                    | Some (lx, rest) => Some (JNum lx, rest)
                    | None => None
                    end
                end
            end
        end
  end.

(** The elements of an array after its opening bracket, up to and with the
    closing one: value *( "," value ) "]". *)
Definition elements_step
    (value : string -> option (json * string))
    (elements : string -> option (list json * string))
    (s : string) : option (list json * string) :=
  match value s with
  | None => None
  | Some (v, r) =>
      match skip_ws r with
      | String c r' =>
          if code c =? 44 then
            match elements r' with
            | Some (vs, rest) => Some (v :: vs, rest)
            | None => None
            end
          else if code c =? 93 then Some ([v], r')
          else None
      | EmptyString => None
      end
  end.

(** The members of an object after its opening brace, up to and with the
    closing one: string ":" value *( "," string ":" value ) "}". *)
Definition members_step
    (value : string -> option (json * string))
    (members : string -> option (list (string * json) * string))
    (s : string) : option (list (string * json) * string) :=
  match skip_ws s with
  | String q r =>
      if code q =? 34 then
        match parse_chars r with
        | None => None
        | Some (k, r1) =>
            match skip_ws r1 with
            | String c r2 =>
                if code c =? 58 then
                  match value r2 with
                  | None => None
                  | Some (v, r3) =>
                      match skip_ws r3 with
                      | String d r4 =>
                          if code d =? 44 then
                            match members r4 with
                            | Some (ms, rest) => Some ((k, v) :: ms, rest)
                            | None => None
                            end
                          else if code d =? 125 then Some ([(k, v)], r4)
                          else None
                      | EmptyString => None
                      end
                  end
                else None
            | EmptyString => None
            end
        end
      else None
  | EmptyString => None
  end.

(** The three parsers. The fuel bounds the depth of the calls; a text never
    needs more than its length ([parse_json]), and more fuel never changes
    a result ([parse_fuel_le] below). *)
Fixpoint parse_value (fuel : nat) (s : string) {struct fuel} : option (json * string) :=
  match fuel with
  | O => None
  | S f => value_step (parse_elements f) (parse_members f) s
  end
with parse_elements (fuel : nat) (s : string) {struct fuel} : option (list json * string) :=
  match fuel with
  | O => None
  | S f => elements_step (parse_value f) (parse_elements f) s
  end
with parse_members (fuel : nat) (s : string) {struct fuel}
    : option (list (string * json) * string) :=
  match fuel with
  | O => None
  | S f => members_step (parse_value f) (parse_members f) s
  end.

(** JSON-text = ws value ws. *)
Definition parse_json (s : string) : option json :=
  match parse_value (S (String.length s)) s with
  | Some (v, rest) =>
      match skip_ws rest with
      | EmptyString => Some v
      | String _ _ => None
      end
  | None => None
  end.

(** The value of a member, the last one when the name is repeated (as
    Python's [json] module, which the notebook tools read files with). *)
Fixpoint member (k : string) (ms : list (string * json)) : option json :=
  match ms with
  | [] => None
  | (k', v) :: r =>
      match member k r with
      | Some w => Some w
      | None => if String.eqb k k' then Some v else None
      end
  end.

Definition field (k : string) (j : json) : option json :=
  match j with
  | JObj ms => member k ms
  | _ => None
  end.

(** The integer a number stands for, when its lexeme has neither fraction
    nor exponent. *)
Fixpoint nat_of_digits (acc : nat) (s : string) : option nat :=
  match s with
  | EmptyString => Some acc
  | String c r => if is_digit c then nat_of_digits (10 * acc + (code c - 48)) r else None
  end.

Definition as_int (j : json) : option Z :=
  match j with
  | JNum (String c r) =>
      if code c =? 45 then
        match r with
        | EmptyString => None
        | _ => option_map (fun n => (- Z.of_nat n)%Z) (nat_of_digits 0 r)
        end
      else option_map Z.of_nat (nat_of_digits 0 (String c r))
  | _ => None
  end.

End Json.

(** ** Notebook documents (nbformat 4) *)

Module Nbformat.
Import Json.
Local Open Scope nat_scope.

(** A cell as the tools that read a notebook see it: the tag, the id, the
    source as one text (a source written as an array of strings is their
    concatenation), and for a code cell its stored outputs and execution
    count ([None] stands for JSON null). *)
Record cell : Type := Cell {
  cell_type : string;
  cell_id : string;
  source : string;
  outputs : option (list json);
  execution_count : option (option Z)
}.

Definition as_string (j : json) : option string :=
  match j with
  | JStr s => Some s
  | _ => None
  end.

Definition as_array (j : json) : option (list json) :=
  match j with
  | JArr l => Some l
  | _ => None
  end.

Definition is_object (j : json) : bool :=
  match j with
  | JObj _ => true
  | _ => false
  end.

(** multiline_string: a string, or an array of strings to be joined. *)
Definition source_text (j : json) : option string :=
  match j with
  | JStr s => Some s
  | JArr l => parts ← mapM as_string l; Some (fold_right String.append EmptyString parts)
  | _ => None
  end.

Definition count_of (j : json) : option (option Z) :=
  match j with
  | JNull => Some None
  | _ => n ← as_int j; Some (Some n)
  end.

Definition cell_of (j : json) : option cell :=
  ty ← field "cell_type" j ≫= as_string;
  id ← field "id" j ≫= as_string;
  src ← field "source" j ≫= source_text;
  Some {| cell_type := ty;
          cell_id := id;
          source := src;
          outputs := field "outputs" j ≫= as_array;
          execution_count := field "execution_count" j ≫= count_of |}.

(** The cells of a notebook document, in the order of the file. *)
Definition cells_of (doc : json) : option (list cell) :=
  j ← field "cells" doc; l ← as_array j; mapM cell_of l.

Definition read (text : string) : option (list cell) :=
  doc ← parse_json text; cells_of doc.

Definition is_code (c : cell) : bool := String.eqb (cell_type c) "code".
Definition is_markdown (c : cell) : bool := String.eqb (cell_type c) "markdown".

(** *** The shape the nbformat 4.5 schema asks for *)

Definition keys (j : json) : list string :=
  match j with
  | JObj ms => map fst ms
  | _ => []
  end.

Definition mem (k : string) (l : list string) : bool := existsb (String.eqb k) l.

Definition has_all (required : list string) (j : json) : bool :=
  forallb (fun k => mem k (keys j)) required.

Definition only (allowed : list string) (j : json) : bool :=
  forallb (fun k => mem k allowed) (keys j).

Definition is_string_field (k : string) (j : json) : bool :=
  match field k j ≫= as_string with
  | Some _ => true
  | None => false
  end.

(** cell_id: between 1 and 64 characters among letters, digits, [-] and [_]. *)
Definition id_char (c : ascii) : bool :=
  let n := code c in
  ((48 <=? n) && (n <=? 57)) || ((65 <=? n) && (n <=? 90))
  || ((97 <=? n) && (n <=? 122)) || (n =? 45) || (n =? 95).

Fixpoint all_chars (p : ascii -> bool) (s : string) : bool :=
  match s with
  | EmptyString => true
  | String c r => p c && all_chars p r
  end.

Definition valid_id (s : string) : bool :=
  (1 <=? String.length s) && (String.length s <=? 64) && all_chars id_char s.

(** An output is looked at only as far as its tag. *)
Definition valid_output (j : json) : bool :=
  match field "output_type" j ≫= as_string with
  | Some t => mem t ["execute_result"; "display_data"; "stream"; "error"]
  | None => false
  end.

Definition valid_count (j : json) : bool :=
  match count_of j with
  | Some None => true
  | Some (Some n) => (0 <=? n)%Z
  | None => false
  end.

Definition valid_common (j : json) : bool :=
  match field "id" j ≫= as_string with
  | Some id => valid_id id
  | None => false
  end
  && match field "metadata" j with
     | Some m => is_object m
     | None => false
     end
  && match field "source" j ≫= source_text with
     | Some _ => true
     | None => false
     end.

(** cell = raw_cell | markdown_cell | code_cell, told apart by cell_type. *)
Definition valid_cell (j : json) : bool :=
  match field "cell_type" j ≫= as_string with
  | Some ty =>
      if String.eqb ty "code" then
        has_all ["id"; "cell_type"; "metadata"; "source"; "outputs"; "execution_count"] j
        && only ["id"; "cell_type"; "metadata"; "source"; "outputs"; "execution_count"] j
        && valid_common j
        && match field "outputs" j ≫= as_array with
           | Some os => forallb valid_output os
           | None => false
           end
        && match field "execution_count" j with
           | Some n => valid_count n
           | None => false
           end
      else if String.eqb ty "markdown" || String.eqb ty "raw" then
        has_all ["id"; "cell_type"; "metadata"; "source"] j
        && only ["id"; "cell_type"; "metadata"; "attachments"; "source"] j
        && valid_common j
      else false
  | None => false
  end.

Fixpoint distinct (l : list string) : bool :=
  match l with
  | [] => true
  | x :: r => negb (mem x r) && distinct r
  end.

Definition valid_metadata (m : json) : bool :=
  is_object m
  && match field "kernelspec" m with
     | Some k => is_string_field "name" k && is_string_field "display_name" k
     | None => true
     end
  && match field "language_info" m with
     | Some l => is_string_field "name" l
     | None => true
     end.

(** The document: exactly the four top-level members, nbformat 4, a minor
    version from 0 up, valid cells with ids that differ. *)
Definition valid_notebook (doc : json) : bool :=
  has_all ["metadata"; "nbformat_minor"; "nbformat"; "cells"] doc
  && only ["metadata"; "nbformat_minor"; "nbformat"; "cells"] doc
  && match field "metadata" doc with
     | Some m => valid_metadata m
     | None => false
     end
  && match field "nbformat" doc ≫= as_int with
     | Some n => (n =? 4)%Z
     | None => false
     end
  && match field "nbformat_minor" doc ≫= as_int with
     | Some n => (0 <=? n)%Z
     | None => false
     end
  && match field "cells" doc ≫= as_array with
     | Some cs =>
         forallb valid_cell cs
         && match mapM (fun c => field "id" c ≫= as_string) cs with
            | Some ids => distinct ids
            | None => false
            end
     | None => false
     end.

End Nbformat.

(** ** The notebook of this repository *)

(** The cells of [ULAB_FRBs.ipynb]; the file is read once, here. *)
Definition notebook : list Nbformat.cell :=
  Eval vm_compute in
    match Nbformat.read Source.notebook_text with
    | Some cs => cs
    | None => []
    end.

Definition code_cells : list Nbformat.cell := List.filter Nbformat.is_code notebook.
Definition markdown_cells : list Nbformat.cell := List.filter Nbformat.is_markdown notebook.

(** ** Python source, line by line *)

Module Python.
Local Open Scope nat_scope.

Definition code (c : ascii) : nat := nat_of_ascii c.

(** The physical lines of a text: split at line feeds, no empty line after
    a final line feed. *)
Fixpoint split_lines (cur : string) (s : string) : list string :=
  match s with
  | EmptyString =>
      match cur with
      | EmptyString => []
      | _ => [cur]
      end
  | String c r =>
      if code c =? 10 then cur :: split_lines EmptyString r
      else split_lines (cur +:+ String c EmptyString) r
  end.

Definition lines (s : string) : list string := split_lines EmptyString s.

Inductive token : Type :=
| TName (s : string)      (* identifier or keyword *)
| TNumber (s : string)    (* starts with a digit *)
| TPunct (c : ascii)      (* operator or delimiter character *)
| TQuote (c : ascii).     (* a string literal starts here; the line is not read further *)

Definition is_space (c : ascii) : bool :=
  let n := code c in (n =? 32) || (n =? 9) || (n =? 12).

Definition is_digit (c : ascii) : bool :=
  let n := code c in (48 <=? n) && (n <=? 57).

(** Letters, digits, underscore, and the bytes of characters beyond ASCII
    (Python 3 identifiers may hold them). *)
Definition is_ident_char (c : ascii) : bool :=
  let n := code c in
  ((48 <=? n) && (n <=? 57)) || ((65 <=? n) && (n <=? 90))
  || ((97 <=? n) && (n <=? 122)) || (n =? 95) || (128 <=? n).

Definition word_token (w : string) : list token :=
  match w with
  | EmptyString => []
  | String c _ => if is_digit c then [TNumber w] else [TName w]
  end.

(** The tokens of one physical line, comment left out. [word] is the
    identifier or number being read. *)
Fixpoint lex (word : string) (s : string) : list token :=
  match s with
  | EmptyString => word_token word
  | String c r =>
      if is_ident_char c then lex (word +:+ String c EmptyString) r
      else
        word_token word ++
          (if is_space c then lex EmptyString r
           else if code c =? 35 then []
           else if (code c =? 34) || (code c =? 39) then [TQuote c]
           else TPunct c :: lex EmptyString r)
  end.

Definition tokens (line : string) : list token := lex EmptyString line.

(** The keywords of Python 3.8 (there are no soft keywords before 3.10). *)
Definition keywords : list string :=
  ["False"; "None"; "True"; "and"; "as"; "assert"; "async"; "await"; "break";
   "class"; "continue"; "def"; "del"; "elif"; "else"; "except"; "finally";
   "for"; "from"; "global"; "if"; "import"; "in"; "is"; "lambda"; "nonlocal";
   "not"; "or"; "pass"; "raise"; "return"; "try"; "while"; "with"; "yield"].

Definition is_keyword (w : string) : bool := existsb (String.eqb w) keywords.

(** The import statements the reading covers: one module per statement,
    absolute, one name after [from ... import]. *)
Inductive stmt : Type :=
| Import (module : list string) (asname : option string)
| FromImport (module : list string) (name : string) (asname : option string).

(** dotted_name: NAME ('.' NAME)*, none of them a keyword. *)
Fixpoint dotted (ts : list token) : option (list string * list token) :=
  match ts with
  | TName a :: TPunct d :: r =>
      if is_keyword a then None
      else if code d =? 46 then
        match dotted r with
        | Some (p, rest) => Some (a :: p, rest)
        | None => None
        end
      else Some ([a], TPunct d :: r)
  | TName a :: r => if is_keyword a then None else Some ([a], r)
  | _ => None
  end.

(** [as NAME], or nothing, up to the end of the line. *)
Definition alias (ts : list token) : option (option string) :=
  match ts with
  | [] => Some None
  | [TName kw; TName n] =>
      if String.eqb kw "as" && negb (is_keyword n) then Some (Some n) else None
  | _ => None
  end.

Definition parse_import (ts : list token) : option stmt :=
  match ts with
  | TName kw :: r =>
      if String.eqb kw "import" then
        match dotted r with
        | Some (p, rest) => option_map (Import p) (alias rest)
        | None => None
        end
      else if String.eqb kw "from" then
        match dotted r with
        | Some (p, TName kw2 :: TName n :: rest) =>
            if String.eqb kw2 "import" && negb (is_keyword n)
            then option_map (FromImport p n) (alias rest) else None
        | _ => None
        end
      else None
  | _ => None
  end.

(** What a line of a cell is.
    - [Juxtaposed a b]: the line starts, in column 0, with two names [a b]
      that are not keywords. No Python 3.8 statement starts so: after a
      name the grammar wants an operator, a delimiter or a keyword.
    - [Magic], [Shell]: lines IPython takes for itself ([%] and [!]).
    - [Unread]: everything this reading does not cover. *)
Inductive line_kind : Type :=
| Blank
| Comment
| Magic
| Shell
| Statement (s : stmt)
| Juxtaposed (a b : string)
| Unread.

Fixpoint skip_spaces (s : string) : string :=
  match s with
  | String c r => if is_space c then skip_spaces r else s
  | EmptyString => s
  end.

Definition classify (line : string) : line_kind :=
  match skip_spaces line with
  | EmptyString => Blank
  | String c _ =>
      if code c =? 35 then Comment
      else if code c =? 37 then Magic
      else if code c =? 33 then Shell
      else
        match line with
        | String c0 _ =>
            if is_space c0 then Unread
            else
              match parse_import (tokens line) with
              | Some st => Statement st
              | None =>
                  match tokens line with
                  | TName a :: TName b :: _ =>
                      if is_keyword a || is_keyword b then Unread else Juxtaposed a b
                  | _ => Unread
                  end
              end
        | EmptyString => Blank
        end
  end.

(** The lines of a cell, numbered from 1, with what each is. *)
Fixpoint number {A} (n : nat) (l : list A) : list (nat * A) :=
  match l with
  | [] => []
  | x :: r => (n, x) :: number (S n) r
  end.

Definition read_cell (src : string) : list (nat * string * line_kind) :=
  map (fun '(n, l) => (n, l, classify l)) (number 1 (lines src)).

(** The tokens of the code of a cell: every line that is neither blank nor
    a comment, comments at the end of a line left out. *)
Definition code_tokens (src : string) : list token :=
  concat (map tokens (lines src)).

(** The name a statement binds. *)
Definition bound_name (st : stmt) : string :=
  match st with
  | Import p (Some n) => n
  | Import p None => hd EmptyString p
  | FromImport _ n None => n
  | FromImport _ _ (Some a) => a
  end.

Definition statements (src : string) : list stmt :=
  flat_map (fun l => match classify l with Statement st => [st] | _ => [] end) (lines src).

Definition token_is_name (names : list string) (t : token) : bool :=
  match t with
  | TName w => existsb (String.eqb w) names
  | _ => false
  end.

Definition token_is_punct (n : nat) (t : token) : bool :=
  match t with
  | TPunct c => code c =? n
  | _ => false
  end.

End Python.

(** ** Running code cells *)

Module Kernel.
Import Python.

(** What a name of the kernel's namespace is bound to. *)
Inductive binding : Type :=
| BoundModule (path : list string)
| BoundAttr (path : list string) (name : string).

(** What a cell does beyond binding names. *)
Inductive event : Type :=
| EvImport (path : list string)
| EvMagic (line : string)
| EvShell (line : string).

(** How the run of a cell ends. [NotModelled n]: line [n] is outside what
    this development gives a meaning to. *)
Inductive outcome : Type :=
| Done
| ImportError (st : stmt)
| SyntaxError (lineno : nat)
| NotModelled (lineno : nat).

Definition is_error (o : outcome) : bool :=
  match o with
  | Done => false
  | _ => true
  end.

(** The installation the kernel runs in: which modules import, and which
    names a module has. Nothing is assumed about it. *)
Record environment : Type := Environment {
  importable : list string -> bool;
  has_attr : list string -> string -> bool
}.

Definition all_installed : environment :=
  {| importable := fun _ => true; has_attr := fun _ _ => true |}.

Definition nothing_installed : environment :=
  {| importable := fun _ => false; has_attr := fun _ _ => false |}.

Record kernel : Type := Kernel {
  ns : gmap string binding;
  trace : list event
}.

Definition fresh : kernel := {| ns := ∅; trace := [] |}.

Definition log (e : event) (k : kernel) : kernel :=
  {| ns := ns k; trace := trace k ++ [e] |}.

Definition bind (n : string) (b : binding) (k : kernel) : kernel :=
  {| ns := <[n := b]> (ns k); trace := trace k |}.

Definition module_of (st : stmt) : list string :=
  match st with
  | Import p _ => p
  | FromImport p _ _ => p
  end.

(** [from m import n] finds [n] as a name of [m] or as a submodule. *)
Definition import_ok (env : environment) (st : stmt) : bool :=
  match st with
  | Import p _ => importable env p
  | FromImport p n _ =>
      importable env p && (has_attr env p n || importable env (p ++ [n]))
  end.

(** [import a.b] binds [a] to the package; [import a.b as n] binds [n] to
    the module [a.b]. *)
Definition binding_of (st : stmt) : binding :=
  match st with
  | Import p (Some _) => BoundModule p
  | Import p None => BoundModule (firstn 1 p)
  | FromImport p n _ => BoundAttr p n
  end.

(** One import statement: the import is attempted, and binds on success. *)
Definition exec_stmt (env : environment) (k : kernel) (st : stmt) : kernel * bool :=
  let k1 := log (EvImport (module_of st)) k in
  if import_ok env st then (bind (bound_name st) (binding_of st) k1, true)
  else (k1, false).

(** The line magics and aliases an IPython 7 kernel answers to without the
    percent sign (automagic is on by default). *)
Definition automagic_names : list string :=
  ["alias"; "alias_magic"; "autoawait"; "autocall"; "automagic"; "autosave";
   "bookmark"; "cat"; "cd"; "clear"; "colors"; "conda"; "config";
   "connect_info"; "cp"; "debug"; "dhist"; "dirs"; "doctest_mode"; "ed";
   "edit"; "env"; "gui"; "hist"; "history"; "killbgscripts"; "ldir"; "less";
   "lf"; "lk"; "ll"; "load"; "load_ext"; "loadpy"; "logoff"; "logon";
   "logstart"; "logstate"; "logstop"; "ls"; "lsmagic"; "lx"; "macro";
   "magic"; "man"; "matplotlib"; "mkdir"; "more"; "mv"; "notebook"; "page";
   "pastebin"; "pdb"; "pdef"; "pdoc"; "pfile"; "pinfo"; "pinfo2"; "pip";
   "popd"; "pprint"; "precision"; "prun"; "psearch"; "psource"; "pushd";
   "pwd"; "pycat"; "pylab"; "qtconsole"; "quickref"; "recall"; "rehashx";
   "reload_ext"; "rep"; "rerun"; "reset"; "reset_selective"; "rm"; "rmdir";
   "run"; "save"; "sc"; "set_env"; "store"; "sx"; "system"; "tb"; "time";
   "timeit"; "unalias"; "unload_ext"; "who"; "who_ls"; "whos"; "xdel";
   "xmode"].

Definition automagic (w : string) : bool := existsb (String.eqb w) automagic_names.

(** The whole cell is compiled before any of it runs: the first line, in
    order, that does not compile decides. *)
Fixpoint check (ls : list (nat * string * line_kind)) : option outcome :=
  match ls with
  | [] => None
  | (n, _, kind) :: r =>
      match kind with
      | Unread => Some (NotModelled n)
      | Juxtaposed a _ => if automagic a then check r else Some (SyntaxError n)
      | _ => check r
      end
  end.

(** The lines of a compiled cell, in order; the first failing import ends
    the run and leaves what was bound before it. *)
Fixpoint exec_lines (env : environment) (k : kernel)
    (ls : list (nat * string * line_kind)) : kernel * outcome :=
  match ls with
  | [] => (k, Done)
  | (n, l, kind) :: r =>
      match kind with
      | Blank | Comment => exec_lines env k r
      | Statement st =>
          let '(k', ok) := exec_stmt env k st in
          if ok then exec_lines env k' r else (k', ImportError st)
      | Magic | Juxtaposed _ _ => (log (EvMagic l) k, NotModelled n)
      | Shell => (log (EvShell l) k, NotModelled n)
      | Unread => (k, NotModelled n)
      end
  end.

Definition run_cell (env : environment) (k : kernel) (src : string) : kernel * outcome :=
  let ls := read_cell src in
  match check ls with
  | Some o => (k, o)
  | None => exec_lines env k ls
  end.

(** The code cells of a notebook in order, each with how it ended. With
    [stop] the run ends at the first cell that fails (Run All); without, the
    reader goes on to the next cell. Markdown cells are not run. *)
Fixpoint run_all (env : environment) (stop : bool) (k : kernel)
    (cs : list Nbformat.cell) : kernel * list (string * outcome) :=
  match cs with
  | [] => (k, [])
  | c :: r =>
      if Nbformat.is_code c then
        let '(k1, o) := run_cell env k (Nbformat.source c) in
        if stop && is_error o then (k1, [(Nbformat.cell_id c, o)])
        else
          let '(k2, os) := run_all env stop k1 r in
          (k2, (Nbformat.cell_id c, o) :: os)
      else run_all env stop k r
  end.

End Kernel.

(** ** Images of a markdown cell *)

Module Markdown.
Local Open Scope nat_scope.

Definition code (c : ascii) : nat := nat_of_ascii c.

(** Where the scan is: in running text, in the description of an image
    (after the opening of an image, up to the closing bracket), or in its
    destination (after the parenthesis, collected so far). *)
Inductive mode : Type :=
| Text
| Alt
| Dest (acc : string).

Definition ends_dest (c : ascii) : bool :=
  let n := code c in (n =? 41) || (n =? 32) || (n =? 9) || (n =? 10).

(** The destinations of the inline images of a text, in order. *)
Fixpoint scan (m : mode) (s : string) : list string :=
  match s with
  | EmptyString => []
  | String c r =>
      match m with
      | Text =>
          if code c =? 33 then
            match r with
            | String b r' => if code b =? 91 then scan Alt r' else scan Text r
            | EmptyString => []
            end
          else scan Text r
      | Alt =>
          if code c =? 93 then
            match r with
            | String b r' => if code b =? 40 then scan (Dest EmptyString) r' else scan Text r
            | EmptyString => []
            end
          else scan Alt r
      | Dest acc =>
          if ends_dest c then acc :: scan Text r
          else scan (Dest (acc +:+ String c EmptyString)) r
      end
  end.

Definition images (src : string) : list string := scan Text src.

Fixpoint starts_with (p s : string) : bool :=
  match p, s with
  | EmptyString, _ => true
  | String a p', String b s' => Ascii.eqb a b && starts_with p' s'
  | String _ _, EmptyString => false
  end.

Fixpoint contains (p s : string) : bool :=
  starts_with p s
  || match s with
     | EmptyString => false
     | String _ r => contains p r
     end.

(** A destination that names a file relative to the notebook: no scheme,
    no leading slash or backslash, no home directory. *)
Definition backslash : string := String (ascii_of_nat 92) EmptyString.

Definition relative (d : string) : bool :=
  negb (starts_with "/" d) && negb (starts_with backslash d)
  && negb (starts_with "~" d) && negb (contains ":" d).

(** Under [images/], without stepping out of it. *)
Definition under_images (d : string) : bool :=
  starts_with "images/" d && negb (contains ".." d).

(** Other ways for a markdown text to show an image or to hold code. *)
Definition has_html (src : string) : bool := contains "<" src.
Definition has_reference_image (src : string) : bool := contains "][" src.
Definition has_code_span (src : string) : bool := contains "`" src || contains "~~~" src.

End Markdown.

(** ** The cells by name, and what the properties speak of *)

Import Nbformat Python Kernel.

Definition empty_cell : cell :=
  {| cell_type := EmptyString; cell_id := EmptyString; source := EmptyString;
     outputs := None; execution_count := None |}.

(** The second cell of the file, [composed-starter], and the tenth,
    [bfa91d73] (under the heading Plasma). *)
Definition import_cell : cell := nth 1 notebook empty_cell.
Definition plasma_cell : cell := nth 9 notebook empty_cell.

(** The names the import statements of a cell bind, in order. *)
Definition cell_names (src : string) : list string :=
  map bound_name (statements src).

Definition has_import (c : cell) : bool :=
  match statements (source c) with
  | [] => false
  | _ :: _ => true
  end.

(** The thirteen names of the import cell, as its statements give them. *)
Definition imported_names : list string :=
  ["u"; "c"; "np"; "plt"; "tqdm"; "signal"; "integrate"; "fftpack";
   "optimize"; "ndimage"; "dispersion"; "formulary"; "simulation"].

(** A line that is blank, a comment or an import statement. *)
Definition plain (k : line_kind) : bool :=
  match k with
  | Blank | Comment | Statement _ => true
  | _ => false
  end.

(** The lines of the code cells that are not [plain]: cell id, line number,
    text, kind. *)
Definition other_lines : list (string * nat * string * line_kind) :=
  flat_map
    (fun c =>
       flat_map
         (fun '(n, l, k) => if plain k then [] else [(cell_id c, n, l, k)])
         (read_cell (source c)))
    code_cells.

(** A cell of nothing but blank lines, comments and imports. *)
Definition all_plain (c : cell) : bool :=
  forallb (fun '(_, _, k) => plain k) (read_cell (source c)).


(** A line the reading gives a Python meaning to. *)
Definition covered (k : line_kind) : bool :=
  match k with
  | Unread | Magic | Shell => false
  | _ => true
  end.

(** Tokens that start or make a definition: [def], [class], [lambda],
    [async], a decorator, an assignment; and the start of a string literal,
    after which the tokens of the line are not known. *)
Definition defining (t : token) : bool :=
  token_is_name ["def"; "class"; "lambda"; "async"] t
  || token_is_punct 64 t || token_is_punct 61 t
  || match t with
     | TQuote _ => true
     | _ => false
     end.

(** An opening parenthesis (without one there is no call), or the start of
    a string literal, after which the tokens of the line are not known. *)
Definition calling (t : token) : bool :=
  token_is_punct 40 t
  || match t with
     | TQuote _ => true
     | _ => false
     end.

Definition import_event (e : event) : bool :=
  match e with
  | EvImport _ => true
  | _ => false
  end.

(** The statements among numbered, classified lines. *)
Definition stmts_of (ls : list (nat * string * line_kind)) : list stmt :=
  flat_map (fun '(_, _, k) => match k with Statement st => [st] | _ => [] end) ls.

(** A cell that, when it runs at all, only imports: either it does not
    compile, or every line of it is blank, a comment or an import. *)
Definition quiet (src : string) : bool :=
  match check (read_cell src) with
  | Some _ => true
  | None => forallb (fun '(_, _, k) => plain k) (read_cell src)
  end.

(** How a cell ends whatever is installed, when that is decided by its
    text alone: it does not compile, or it has only blank lines and
    comments. *)
Definition inert (src : string) : option outcome :=
  match check (read_cell src) with
  | Some o => Some o
  | None =>
      if forallb (fun '(_, _, k) => match k with Blank | Comment => true | _ => false end)
           (read_cell src)
      then Some Done else None
  end.

(** [k'] comes from [k] by imports that bind names among [names]: every
    other name is as it was, and the trace grew by import events only. *)
Definition extends (names : list string) (k k' : kernel) : Prop :=
  (forall n, n ∉ names -> ns k' !! n = ns k !! n)
  /\ exists evs, trace k' = (trace k ++ evs)%list /\ forallb import_event evs = true.

(** A cell that is [quiet] and binds names among [names] only. *)
Definition tame (names : list string) (src : string) : bool :=
  quiet src && forallb (fun n => Nbformat.mem n names) (cell_names src).

(** The namespace without the given names. *)
Definition forget (names : list string) (m : gmap string binding) : gmap string binding :=
  foldr delete m names.

(** ** What a run of plain cells amounts to *)

(** The import statements of the cell [composed-starter], in order
    ([import_statements_read] checks them against the cell). *)
Definition import_statements : list stmt :=
  [Import ["astropy"; "units"] (Some "u");
   Import ["astropy"; "constants"] (Some "c");
   Import ["numpy"] (Some "np");
   Import ["matplotlib"; "pyplot"] (Some "plt");
   FromImport ["tqdm"] "tqdm" None;
   FromImport ["scipy"] "signal" None;
   FromImport ["scipy"] "integrate" None;
   FromImport ["scipy"] "fftpack" None;
   FromImport ["scipy"] "optimize" None;
   FromImport ["scipy"] "ndimage" None;
   FromImport ["plasmapy"] "dispersion" None;
   FromImport ["plasmapy"] "formulary" None;
   FromImport ["plasmapy"] "simulation" None].

(** The bindings statements make when their imports succeed, in order. *)
Definition bindings_of (sts : list stmt) : list (string * binding) :=
  map (fun st => (bound_name st, binding_of st)) sts.

(** Binding one after the other: a later binding of a name replaces an
    earlier one. *)
Definition bind_all (bs : list (string * binding)) (m : gmap string binding)
    : gmap string binding :=
  foldl (fun m '(n, b) => <[n := b]> m) m bs.

(** The last binding of a name in a list of bindings. *)
Fixpoint assoc_last (n : string) (bs : list (string * binding)) : option binding :=
  match bs with
  | [] => None
  | (a, b) :: r =>
      match assoc_last n r with
      | Some v => Some v
      | None => if String.eqb a n then Some b else None
      end
  end.

(** The statements a run gets through: those before the first whose import
    fails. *)
Fixpoint imported (env : environment) (sts : list stmt) : list stmt :=
  match sts with
  | [] => []
  | st :: r => if import_ok env st then st :: imported env r else []
  end.

(** The statements a run attempts: those it gets through and the one that
    fails. *)
Fixpoint attempted (env : environment) (sts : list stmt) : list stmt :=
  match sts with
  | [] => []
  | st :: r => st :: (if import_ok env st then attempted env r else [])
  end.

Definition first_failure (env : environment) (sts : list stmt) : option stmt :=
  find (fun st => negb (import_ok env st)) sts.

Definition import_events (sts : list stmt) : list event :=
  map (fun st => EvImport (module_of st)) sts.

(** A cell that leaves the kernel as it is: a markdown cell, or a code cell
    that is [inert]. *)
Definition still (c : cell) : bool :=
  negb (is_code c)
  || match inert (source c) with
     | Some _ => true
     | None => false
     end.

(** The outcomes of a run of [still] cells, read off their text. *)
Fixpoint static_run (stop : bool) (cs : list cell) : list (string * outcome) :=
  match cs with
  | [] => []
  | c :: r =>
      if is_code c then
        match inert (source c) with
        | Some o =>
            if stop && is_error o then [(cell_id c, o)]
            else (cell_id c, o) :: static_run stop r
        | None => []
        end
      else static_run stop r
  end.

(** An installation with everything but plasmapy. *)
Definition no_plasmapy : environment :=
  {| importable := fun p =>
       match p with
       | m :: _ => negb (String.eqb m "plasmapy")
       | [] => true
       end;
     has_attr := fun _ _ => true |}.

(** ** The JSON reader and its fuel *)

Section Fuel.
Import Json.

(** [q] answers wherever [p] does, and the same. *)
Definition below {A} (p q : string -> option A) : Prop :=
  forall s r, p s = Some r -> q s = Some r.

Ltac scrutinise :=
  repeat match goal with
    | L : below ?p _, H : context [match ?p ?x with _ => _ end] |- _ =>
        let E := fresh "E" in
        destruct (p x) as [[? ?]|] eqn:E; [apply L in E; rewrite E | discriminate H]
    | H : context [match ?x with _ => _ end] |- _ =>
        destruct x eqn:?; try discriminate H
    end.

Lemma value_step_below pe pe' pm pm' :
  below pe pe' -> below pm pm' -> below (value_step pe pm) (value_step pe' pm').
Proof.
  intros Le Lm s r H. unfold value_step in *. scrutinise; assumption.
Qed.

Lemma elements_step_below pv pv' pe pe' :
  below pv pv' -> below pe pe' -> below (elements_step pv pe) (elements_step pv' pe').
Proof.
  intros Lv Le s r H. unfold elements_step in *. scrutinise; assumption.
Qed.

Lemma members_step_below pv pv' pm pm' :
  below pv pv' -> below pm pm' -> below (members_step pv pm) (members_step pv' pm').
Proof.
  intros Lv Lm s r H. unfold members_step in *. scrutinise; assumption.
Qed.

Lemma parse_fuel_S f :
  below (parse_value f) (parse_value (S f))
  /\ below (parse_elements f) (parse_elements (S f))
  /\ below (parse_members f) (parse_members (S f)).
Proof.
  induction f as [|f (IHv & IHe & IHm)].
  - repeat split; intros s r H; discriminate H.
  - split; [|split].
    + change (below (value_step (parse_elements f) (parse_members f))
                (value_step (parse_elements (S f)) (parse_members (S f)))).
      now apply value_step_below.
    + change (below (elements_step (parse_value f) (parse_elements f))
                (elements_step (parse_value (S f)) (parse_elements (S f)))).
      now apply elements_step_below.
    + change (below (members_step (parse_value f) (parse_members f))
                (members_step (parse_value (S f)) (parse_members (S f)))).
      now apply members_step_below.
Qed.

(** More fuel never changes what the reader returns. *)
Lemma parse_fuel_le f f' :
  f <= f' -> below (parse_value f) (parse_value f').
Proof.
  induction 1 as [|f' _ IH]; intros s r H; [exact H|].
  now apply (proj1 (parse_fuel_S f')), IH.
Qed.

End Fuel.

(** ** Reading the file *)

(** The text is as long as the file: 13886 bytes. *)
Lemma notebook_text_length : N.of_nat (String.length Source.notebook_text) = 13886%N.
Proof. vm_compute. reflexivity. Qed.

Lemma notebook_read : Nbformat.read Source.notebook_text = Some notebook.
Proof. vm_compute. reflexivity. Qed.

Lemma code_cell_ids :
  map cell_id code_cells =
  ["composed-starter"; "protective-shopping"; "ideal-holly"; "bfa91d73";
   "instant-constitutional"; "mighty-logistics"].
Proof. vm_compute. reflexivity. Qed.

Lemma Forall_of_forallb {A} (f : A -> bool) (l : list A) :
  forallb f l = true -> Forall (fun x => f x = true) l.
Proof.
  induction l as [|x l IH]; simpl; intros H; constructor.
  - apply andb_true_iff in H. tauto.
  - apply IH. apply andb_true_iff in H. tauto.
Qed.

Lemma mem_elem_of (n : string) (names : list string) :
  Nbformat.mem n names = true -> n ∈ names.
Proof.
  unfold Nbformat.mem. intros H. apply existsb_exists in H as (x & Hx & Heq).
  apply String.eqb_eq in Heq. subst x. now apply list_elem_of_In.
Qed.

(** ** Running cells: what can change *)

Lemma extends_refl names k : extends names k k.
Proof.
  split; [reflexivity|]. exists []. split; [|reflexivity].
  symmetry. apply app_nil_r.
Qed.

Lemma extends_trans names k1 k2 k3 :
  extends names k1 k2 -> extends names k2 k3 -> extends names k1 k3.
Proof.
  intros [F1 (e1 & T1 & I1)] [F2 (e2 & T2 & I2)]. split.
  - intros n Hn. rewrite F2, F1 by assumption. reflexivity.
  - exists (e1 ++ e2)%list. split.
    + rewrite T2, T1. symmetry. apply app_assoc.
    + rewrite forallb_app, I1, I2. reflexivity.
Qed.

Lemma extends_log names p k : extends names k (log (EvImport p) k).
Proof.
  split; [reflexivity|]. exists [EvImport p]. split; reflexivity.
Qed.

Lemma extends_bind names n b k : n ∈ names -> extends names k (bind n b k).
Proof.
  intros Hin. split.
  - intros m Hm. simpl. apply lookup_insert_ne. intros ->. contradiction.
  - exists []. split; [|reflexivity]. simpl. symmetry. apply app_nil_r.
Qed.

Lemma exec_stmt_extends env names k st :
  bound_name st ∈ names -> extends names k (exec_stmt env k st).1.
Proof.
  intros Hin. unfold exec_stmt. destruct (import_ok env st); simpl.
  - eapply extends_trans; [apply extends_log|]. now apply extends_bind.
  - apply extends_log.
Qed.

Lemma exec_lines_extends env names ls :
  forallb (fun '(_, _, k) => plain k) ls = true ->
  forallb (fun n => Nbformat.mem n names) (map bound_name (stmts_of ls)) = true ->
  forall k, extends names k (exec_lines env k ls).1.
Proof.
  induction ls as [|[[n l] kind] ls IH]; intros Hp Hn k.
  - apply extends_refl.
  - simpl in Hp. apply andb_true_iff in Hp as [Hk Hp].
    destruct kind; try discriminate Hk; simpl.
    + now apply IH.
    + now apply IH.
    + simpl in Hn. apply andb_true_iff in Hn as [Hs Hn].
      pose proof (exec_stmt_extends env names k s (mem_elem_of _ _ Hs)) as E.
      destruct (exec_stmt env k s) as [k' ok]. simpl in E.
      destruct ok; simpl; [|exact E].
      eapply extends_trans; [exact E|]. now apply IH.
Qed.

Lemma stmts_of_map_classify (nls : list (nat * string)) :
  stmts_of (map (fun '(n, l) => (n, l, classify l)) nls)
  = flat_map (fun l => match classify l with Statement st => [st] | _ => [] end)
      (map snd nls).
Proof.
  induction nls as [|[n l] nls IH]; [reflexivity|].
  change (stmts_of (map (fun '(n, l) => (n, l, classify l)) ((n, l) :: nls)))
    with ((match classify l with Statement st => [st] | _ => [] end)
          ++ stmts_of (map (fun '(n, l) => (n, l, classify l)) nls))%list.
  rewrite IH. reflexivity.
Qed.

Lemma map_snd_number {A} (l : list A) n : map snd (number n l) = l.
Proof.
  revert n. induction l as [|x l IH]; intros n; [reflexivity|].
  simpl. now rewrite IH.
Qed.

Lemma stmts_of_read_cell src : stmts_of (read_cell src) = statements src.
Proof.
  unfold read_cell, statements.
  rewrite stmts_of_map_classify, map_snd_number. reflexivity.
Qed.

Lemma run_cell_extends env names src k :
  tame names src = true -> extends names k (run_cell env k src).1.
Proof.
  unfold tame, quiet, run_cell, cell_names. intros H.
  apply andb_true_iff in H as [Hq Hn].
  destruct (check (read_cell src)); simpl.
  - apply extends_refl.
  - apply exec_lines_extends; [exact Hq|].
    rewrite stmts_of_read_cell. exact Hn.
Qed.

Lemma run_all_extends env stop names cs :
  forallb (fun c => negb (is_code c) || tame names (source c)) cs = true ->
  forall k, extends names k (run_all env stop k cs).1.
Proof.
  induction cs as [|c cs IH]; intros H k.
  - apply extends_refl.
  - simpl in H. apply andb_true_iff in H as [Hc H]. simpl.
    destruct (is_code c); simpl in Hc.
    + pose proof (run_cell_extends env names (source c) k Hc) as E.
      destruct (run_cell env k (source c)) as [k1 o]. simpl in E.
      destruct (stop && is_error o); simpl; [exact E|].
      pose proof (IH H k1) as E2.
      destruct (run_all env stop k1 cs) as [k2 os]. simpl in *.
      eapply extends_trans; eassumption.
    + now apply IH.
Qed.

(** Every name bound after the run was bound before it or is one of [names]. *)
Lemma extends_dom names k k' :
  extends names k k' -> dom (ns k') ⊆ dom (ns k) ∪ list_to_set names.
Proof.
  intros [F _] n Hn. destruct (decide (n ∈ names)) as [Hin|Hout].
  - apply elem_of_union_r. now apply elem_of_list_to_set.
  - apply elem_of_union_l. apply elem_of_dom. rewrite <- (F n Hout).
    now apply elem_of_dom.
Qed.

(** A cell without import statements leaves the namespace as it is. *)
Lemma extends_nil_ns k k' : extends [] k k' -> ns k' = ns k.
Proof.
  intros [F _]. apply map_eq. intros n. apply F. apply not_elem_of_nil.
Qed.

Lemma notebook_tame :
  forallb (fun c => negb (is_code c) || tame imported_names (source c)) notebook = true.
Proof. vm_compute. reflexivity. Qed.

Lemma later_cells_tame :
  forallb (fun c => tame [] (source c)) (tl code_cells) = true.
Proof. vm_compute. reflexivity. Qed.

Lemma named_cells :
  cell_id import_cell = "composed-starter" /\ cell_id plasma_cell = "bfa91d73"
  /\ In import_cell code_cells /\ In plasma_cell code_cells.
Proof. vm_compute. tauto. Qed.

(** ** Running cells: how they end *)

Lemma run_cell_inert env k src o :
  inert src = Some o -> run_cell env k src = (k, o).
Proof.
  unfold inert, run_cell. destruct (check (read_cell src)) as [o'|].
  - now intros [= ->].
  - generalize (read_cell src) as ls. intros ls.
    destruct (forallb _ ls) eqn:E; [|discriminate]. intros [= <-].
    revert E. induction ls as [|[[n l] kind] ls IH]; [reflexivity|].
    simpl. intros E. apply andb_true_iff in E as [Ek E].
    destruct kind; try discriminate Ek; now apply IH.
Qed.

Lemma exec_lines_ends env ls :
  forallb (fun '(_, _, k) => plain k) ls = true ->
  forall k, (exec_lines env k ls).2 = Done
            \/ exists st, In st (stmts_of ls) /\ import_ok env st = false
                          /\ (exec_lines env k ls).2 = ImportError st.
Proof.
  induction ls as [|[[n l] kind] ls IH]; intros Hp k; [now left|].
  simpl in Hp. apply andb_true_iff in Hp as [Hk Hp].
  destruct kind; try discriminate Hk; simpl.
  - now apply IH.
  - now apply IH.
  - unfold exec_stmt. destruct (import_ok env s) eqn:E.
    + destruct (IH Hp (bind (bound_name s) (binding_of s) (log (EvImport (module_of s)) k)))
        as [D|(st & Hin & Hno & Hst)]; [now left|].
      right. exists st. split; [now right|]. now split.
    + right. exists s. split; [now left|]. now split.
Qed.


Lemma run_all_reports env k cs c o :
  In c cs -> is_code c = true ->
  (forall k', (run_cell env k' (source c)).2 = o) ->
  In (cell_id c, o) (run_all env false k cs).2.
Proof.
  intros Hin Hc Ho. revert k. induction cs as [|c' cs IH]; intros k; [contradiction|].
  simpl. destruct Hin as [->|Hin].
  - rewrite Hc. specialize (Ho k). destruct (run_cell env k (source c)) as [k1 o1].
    simpl in Ho. subst o1. destruct (run_all env false k1 cs). now left.
  - destruct (is_code c').
    + destruct (run_cell env k (source c')) as [k1 o1].
      specialize (IH Hin k1). destruct (run_all env false k1 cs). now right.
    + now apply IH.
Qed.

Lemma plasma_cell_inert : inert (source plasma_cell) = Some (SyntaxError 8).
Proof. vm_compute. reflexivity. Qed.

Lemma lookup_forget names (m : gmap string binding) n :
  forget names m !! n = if decide (n ∈ names) then None else m !! n.
Proof.
  induction names as [|a names IH]; simpl.
  - destruct (decide (n ∈ [])) as [H|_]; [|reflexivity]. now apply not_elem_of_nil in H.
  - destruct (decide (a = n)) as [->|Hne].
    + rewrite lookup_delete_eq. destruct (decide (n ∈ n :: names)) as [_|H]; [reflexivity|].
      exfalso. apply H. left.
    + rewrite lookup_delete_ne by exact Hne. rewrite IH.
      destruct (decide (n ∈ names)) as [H|H]; destruct (decide (n ∈ a :: names)) as [H'|H'];
        try reflexivity.
      * exfalso. apply H'. now right.
      * exfalso. apply elem_of_cons in H' as [->|H']; [now apply Hne|now apply H].
Qed.

Lemma extends_forget names k k' :
  extends names k k' -> forget names (ns k') = forget names (ns k).
Proof.
  intros [F _]. apply map_eq. intros n. rewrite !lookup_forget.
  destruct (decide (n ∈ names)); [reflexivity|]. now apply F.
Qed.

Lemma Forall_of_forallb_neg {A} (f : A -> bool) (l : list A) :
  forallb (fun x => negb (f x)) l = true -> Forall (fun x => f x = false) l.
Proof.
  intros H. apply Forall_of_forallb in H. eapply Forall_impl; [exact H|].
  intros x Hx. now apply negb_true_iff.
Qed.

(** ** The reading covers the notebook *)

(** No line of a code cell is outside the reading: each is blank, a
    comment, an import statement, or two names side by side. *)
Lemma every_line_read :
  forallb (fun c => forallb (fun '(_, _, k) => covered k) (read_cell (source c)))
    code_cells = true.
Proof. vm_compute. reflexivity. Qed.

Lemma no_call_tokens :
  forallb (fun c => forallb (fun t => negb (calling t)) (code_tokens (source c)))
    code_cells = true.
Proof. vm_compute. reflexivity. Qed.

(** The magic line, were it not commented out. *)
Remark uncommented_magic_line : classify "%matplotlib notebook" = Magic.
Proof. reflexivity. Qed.

(** ** The claims *)

(** C1 (does not hold on the notebook): every code cell consists solely of
    import statements, comment lines and blank lines. Five of the six code
    cells do; cell [bfa91d73] has one line more, line 8, the sentence
    written without a leading [#]. The list of lines of code cells that are
    neither blank, nor a comment, nor an import is exactly that line. *)
Theorem C1_one_line_is_neither_import_nor_comment :
  forallb all_plain code_cells = false
  /\ List.filter (fun c => negb (all_plain c)) code_cells = [plasma_cell]
  /\ other_lines =
     [("bfa91d73", 8, "Different plane waves have different propogation velocities",
       Juxtaposed "Different" "plane")].
Proof. vm_compute. repeat split. Qed.

(** C2 (does not hold on the notebook): run in order, the code cells fail in
    no other way than by a failing import of the import cell. Whatever is
    installed, cell [bfa91d73] ends in a SyntaxError at its line 8; the
    import cell ends well or in an ImportError of one of its statements; the
    four cells of comments end well. With Run All and everything installed
    the run stops at [bfa91d73]. *)
Theorem C2_syntax_error_besides_import_errors :
  (forall env, In ("bfa91d73", SyntaxError 8) (run_all env false fresh notebook).2)
  /\ (forall env k, run_cell env k (source plasma_cell) = (k, SyntaxError 8))
  /\ (forall env k, (run_cell env k (source import_cell)).2 = Done
        \/ exists st, In st (statements (source import_cell))
                      /\ import_ok env st = false
                      /\ (run_cell env k (source import_cell)).2 = ImportError st)
  /\ Forall (fun c => forall env k, run_cell env k (source c) = (k, Done))
       (List.filter (fun c => all_plain c && negb (has_import c)) code_cells)
  /\ (run_all all_installed true fresh notebook).2 =
     [("composed-starter", Done); ("protective-shopping", Done);
      ("ideal-holly", Done); ("bfa91d73", SyntaxError 8)].
Proof.
  split; [|split; [|split; [|split]]].
  - intros env. change "bfa91d73" with (cell_id plasma_cell).
    apply run_all_reports.
    + vm_compute. tauto.
    + reflexivity.
    + intros k'. now rewrite (run_cell_inert env k' _ _ plasma_cell_inert).
  - intros env k. apply run_cell_inert, plasma_cell_inert.
  - intros env k. unfold run_cell.
    assert (Hc : check (read_cell (source import_cell)) = None) by (vm_compute; reflexivity).
    assert (Hp : forallb (fun '(_, _, k) => plain k) (read_cell (source import_cell)) = true)
      by (vm_compute; reflexivity).
    rewrite Hc, <- stmts_of_read_cell. apply exec_lines_ends, Hp.
  - assert (H : forallb (fun c => match inert (source c) with Some Done => true | _ => false end)
                  (List.filter (fun c => all_plain c && negb (has_import c)) code_cells) = true)
      by (vm_compute; reflexivity).
    apply Forall_of_forallb in H. eapply Forall_impl; [exact H|].
    intros c Hc env k. apply run_cell_inert. simpl in Hc.
    destruct (inert (source c)) as [[| | |]|]; try discriminate Hc. reflexivity.
  - vm_compute. reflexivity.
Qed.

(** C3: no code cell defines a function, a class, a data structure or any
    other reusable construct. For every code cell, no token of its code is
    [def], [class], [lambda], [async], a decorator sign or an assignment
    sign; no line holds a string literal and every line is one the reading
    covers (blank, comment, import, or two names side by side), so that
    nothing of the cell lies outside the tokens looked at. *)
Theorem C3_no_definitions (c : cell) :
  In c code_cells ->
  Forall (fun t => defining t = false) (code_tokens (source c))
  /\ Forall (fun '(_, _, k) => covered k = true) (read_cell (source c)).
Proof.
  intros Hin. split.
  - assert (H : forallb (fun c => forallb (fun t => negb (defining t)) (code_tokens (source c)))
                  code_cells = true) by (vm_compute; reflexivity).
    rewrite forallb_forall in H. now apply Forall_of_forallb_neg, H.
  - pose proof every_line_read as H. rewrite forallb_forall in H.
    specialize (H c Hin). apply Forall_of_forallb in H.
    eapply Forall_impl; [exact H|]. now intros [[n l] k].
Qed.

Lemma C3_no_definitions_witness :
  In plasma_cell code_cells
  /\ Forall (fun t => defining t = false) (code_tokens (source plasma_cell))
  /\ Forall (fun '(_, _, k) => covered k = true) (read_cell (source plasma_cell)).
Proof.
  assert (H : In plasma_cell code_cells) by (vm_compute; tauto).
  split; [exact H|]. exact (C3_no_definitions plasma_cell H).
Defined.

(** C4: exactly one code cell has import statements, the cell
    [composed-starter]; the names they bind are u, c, np, plt, tqdm, signal,
    integrate, fftpack, optimize, ndimage, dispersion, formulary and
    simulation; no token of the code of any other code cell is one of these
    names, and the markdown cells, which are the rest of the notebook, hold
    no code span or fenced code in which a name could be used. *)
Theorem C4_one_import_cell_names_unused :
  List.filter has_import code_cells = [import_cell]
  /\ cell_id import_cell = "composed-starter"
  /\ cell_names (source import_cell) = imported_names
  /\ Forall (fun c => Forall (fun t => token_is_name imported_names t = false)
                        (code_tokens (source c)))
       (List.filter (fun c => negb (has_import c)) code_cells)
  /\ Forall (fun c => Markdown.has_code_span (source c) = false) markdown_cells
  /\ length (List.filter has_import code_cells)
     + length (List.filter (fun c => negb (has_import c)) code_cells)
     + length markdown_cells = length notebook.
Proof.
  split; [vm_compute; reflexivity|].
  split; [vm_compute; reflexivity|].
  split; [vm_compute; reflexivity|].
  split; [|split; [|vm_compute; reflexivity]].
  - assert (H : forallb (fun c => forallb (fun t => negb (token_is_name imported_names t))
                                    (code_tokens (source c)))
                  (List.filter (fun c => negb (has_import c)) code_cells) = true)
      by (vm_compute; reflexivity).
    apply Forall_of_forallb in H. eapply Forall_impl; [exact H|].
    intros c Hc. now apply Forall_of_forallb_neg.
  - apply Forall_of_forallb_neg. vm_compute. reflexivity.
Qed.

(** C5: the file is a JSON text; the document it holds has the shape of
    nbformat 4 (the four top-level members, nbformat 4, well-formed cells
    with distinct ids); its cells, in order, are the fifteen cells of
    [notebook], each tagged markdown or code. *)
Theorem C5_valid_json_nbformat_4 :
  exists doc,
    Json.parse_json Source.notebook_text = Some doc
    /\ valid_notebook doc = true
    /\ (n ← Json.field "nbformat" doc; Json.as_int n) = Some 4%Z
    /\ cells_of doc = Some notebook
    /\ length notebook = 15
    /\ Forall (fun c => cell_type c = "markdown" \/ cell_type c = "code") notebook.
Proof.
  destruct (Json.parse_json Source.notebook_text) as [doc|] eqn:E;
    [|vm_compute in E; discriminate E].
  exists doc. split; [reflexivity|].
  assert (Hd : Some doc = Json.parse_json Source.notebook_text) by now rewrite E.
  clear E. vm_compute in Hd. injection Hd as ->.
  split; [vm_compute; reflexivity|].
  split; [vm_compute; reflexivity|].
  split; [vm_compute; reflexivity|].
  split; [reflexivity|].
  assert (H : forallb (fun c => is_markdown c || is_code c) notebook = true)
    by (vm_compute; reflexivity).
  apply Forall_of_forallb in H. eapply Forall_impl; [exact H|].
  intros c Hc. simpl in Hc. apply orb_true_iff in Hc as [Hc|Hc]; [left|right];
    now apply String.eqb_eq.
Qed.

(** C6: the images shown by the markdown cells are five, each given by a
    path relative to the notebook and under [images/]; no markdown cell
    uses HTML or a reference-style image to show one, and no code cell has
    a call in it (no opening parenthesis among its tokens, and no string
    literal that could hide one), so none is fetched by code. *)
Theorem C6_images_by_relative_path :
  flat_map (fun c => Markdown.images (source c)) markdown_cells =
    ["images/prism.jpeg"; "images/cenA.png"; "images/sun_spectrum.png";
     "images/spectrums.jpg"; "images/plasma-cloud-diagram.jpg"]
  /\ Forall (fun d => Markdown.relative d = true /\ Markdown.under_images d = true)
       (flat_map (fun c => Markdown.images (source c)) markdown_cells)
  /\ Forall (fun c => Markdown.has_html (source c) = false
                      /\ Markdown.has_reference_image (source c) = false)
       markdown_cells
  /\ Forall (fun c => Forall (fun t => calling t = false) (code_tokens (source c)))
       code_cells.
Proof.
  split; [vm_compute; reflexivity|]. split; [|split].
  - assert (H : forallb (fun d => Markdown.relative d && Markdown.under_images d)
                  (flat_map (fun c => Markdown.images (source c)) markdown_cells) = true)
      by (vm_compute; reflexivity).
    apply Forall_of_forallb in H. eapply Forall_impl; [exact H|].
    intros d Hd. now apply andb_true_iff.
  - assert (H : forallb (fun c => negb (Markdown.has_html (source c)
                                        || Markdown.has_reference_image (source c)))
                  markdown_cells = true) by (vm_compute; reflexivity).
    apply Forall_of_forallb_neg in H. eapply Forall_impl; [exact H|].
    intros c Hc. now apply orb_false_iff.
  - pose proof no_call_tokens as H. apply Forall_of_forallb in H.
    eapply Forall_impl; [exact H|]. intros c Hc. now apply Forall_of_forallb_neg.
Qed.

(** C7: running the code cells creates no binding but those of the import
    cell and changes none afterwards. From any kernel state, whatever is
    installed and whether or not the run stops at the first failure: the
    names bound at the end are those bound at the start and the thirteen
    imported names; apart from these thirteen the namespace is as it was;
    the import cell is the first code cell, and every code cell after it
    leaves the namespace it is run in unchanged. With everything installed,
    the fresh kernel ends with exactly the thirteen names. *)
Theorem C7_only_import_bindings (env : environment) (stop : bool) (k0 : kernel) :
  dom (ns (run_all env stop k0 notebook).1) ⊆ dom (ns k0) ∪ list_to_set imported_names
  /\ forget imported_names (ns (run_all env stop k0 notebook).1)
     = forget imported_names (ns k0)
  /\ hd_error code_cells = Some import_cell
  /\ Forall (fun c => forall env' k, ns (run_cell env' k (source c)).1 = ns k)
       (tl code_cells)
  /\ dom (ns (run_all all_installed false fresh notebook).1) = list_to_set imported_names.
Proof.
  pose proof (run_all_extends env stop imported_names notebook notebook_tame k0) as E.
  split; [now apply extends_dom|].
  split; [now apply extends_forget|].
  split; [vm_compute; reflexivity|].
  split.
  - pose proof later_cells_tame as H. apply Forall_of_forallb in H.
    eapply Forall_impl; [exact H|]. intros c Hc env' k.
    apply extends_nil_ns. now apply run_cell_extends.
  - vm_compute. reflexivity.
Qed.


(** C9: cell [bfa91d73] is a code cell whose line 8 is the sentence
    "Different plane waves have different propogation velocities"; the line
    starts with two names side by side, neither a keyword, the first no
    magic of the kernel, so the cell does not compile: run in any kernel
    state, whatever is installed, it ends in a SyntaxError at line 8 and
    leaves the kernel as it was. *)
Theorem C9_plasma_cell_raises_syntax_error :
  In plasma_cell code_cells
  /\ cell_id plasma_cell = "bfa91d73"
  /\ nth_error (lines (source plasma_cell)) 7
     = Some "Different plane waves have different propogation velocities"
  /\ classify "Different plane waves have different propogation velocities"
     = Juxtaposed "Different" "plane"
  /\ is_keyword "Different" = false /\ is_keyword "plane" = false
  /\ automagic "Different" = false
  /\ forall env k, run_cell env k (source plasma_cell) = (k, SyntaxError 8).
Proof.
  split; [vm_compute; tauto|].
  do 6 (split; [vm_compute; reflexivity|]).
  intros env k. unfold run_cell.
  assert (H : check (read_cell (source plasma_cell)) = Some (SyntaxError 8))
    by (vm_compute; reflexivity).
  now rewrite H.
Qed.



(** ** A cell of imports, run *)

Local Open Scope list_scope.

Lemma import_statements_read : statements (source import_cell) = import_statements.
Proof. vm_compute. reflexivity. Qed.

Lemma exec_lines_plain env ls :
  forallb (fun '(_, _, k) => plain k) ls = true ->
  forall k,
    exec_lines env k ls =
    ({| ns := bind_all (bindings_of (imported env (stmts_of ls))) (ns k);
        trace := trace k ++ import_events (attempted env (stmts_of ls)) |},
     match first_failure env (stmts_of ls) with
     | Some st => ImportError st
     | None => Done
     end).
Proof.
  induction ls as [|[[n l] kind] ls IH]; intros Hp k.
  - destruct k as [m t]. simpl. now rewrite app_nil_r.
  - simpl in Hp. apply andb_true_iff in Hp as [Hk Hp].
    destruct kind; try discriminate Hk.
    + simpl. now apply IH.
    + simpl. now apply IH.
    + change (stmts_of ((n, l, Statement s) :: ls)) with (s :: stmts_of ls).
      unfold first_failure. simpl. unfold exec_stmt.
      destruct (import_ok env s) eqn:E; simpl.
      * rewrite (IH Hp). simpl. unfold import_events.
        now rewrite <- app_assoc.
      * reflexivity.
Qed.

Lemma run_cell_plain env k src :
  check (read_cell src) = None ->
  forallb (fun '(_, _, kind) => plain kind) (read_cell src) = true ->
  run_cell env k src =
  ({| ns := bind_all (bindings_of (imported env (statements src))) (ns k);
      trace := trace k ++ import_events (attempted env (statements src)) |},
   match first_failure env (statements src) with
   | Some st => ImportError st
   | None => Done
   end).
Proof.
  intros Hc Hp. unfold run_cell. rewrite Hc, (exec_lines_plain env _ Hp k).
  now rewrite stmts_of_read_cell.
Qed.

Lemma run_import_cell env k :
  run_cell env k (source import_cell) =
  ({| ns := bind_all (bindings_of (imported env import_statements)) (ns k);
      trace := trace k ++ import_events (attempted env import_statements) |},
   match first_failure env import_statements with
   | Some st => ImportError st
   | None => Done
   end).
Proof.
  rewrite <- import_statements_read.
  apply run_cell_plain; vm_compute; reflexivity.
Qed.

Lemma all_succeed env sts :
  forallb (import_ok env) sts = true ->
  imported env sts = sts /\ attempted env sts = sts /\ first_failure env sts = None.
Proof.
  unfold first_failure.
  induction sts as [|st sts IH]; simpl; intros H; [auto|].
  apply andb_true_iff in H as [Hs H]. rewrite Hs. simpl.
  destruct (IH H) as (-> & -> & ->). auto.
Qed.

Lemma first_fails env pre st post :
  forallb (import_ok env) pre = true -> import_ok env st = false ->
  imported env (pre ++ st :: post) = pre
  /\ attempted env (pre ++ st :: post) = pre ++ [st]
  /\ first_failure env (pre ++ st :: post) = Some st.
Proof.
  unfold first_failure. intros Hp Hs.
  induction pre as [|a pre IH]; simpl.
  - rewrite Hs. auto.
  - simpl in Hp. apply andb_true_iff in Hp as [Ha Hp]. rewrite Ha. simpl.
    destruct (IH Hp) as (-> & -> & ->). auto.
Qed.

Lemma lookup_bind_all bs (m : gmap string binding) n :
  bind_all bs m !! n =
  match assoc_last n bs with
  | Some b => Some b
  | None => m !! n
  end.
Proof.
  revert m. induction bs as [|[a b] bs IH]; intros m; [reflexivity|].
  change (bind_all ((a, b) :: bs) m) with (bind_all bs (<[a := b]> m)).
  rewrite IH. simpl. destruct (assoc_last n bs); [reflexivity|].
  destruct (String.eqb a n) eqn:E.
  - apply String.eqb_eq in E. subst. apply lookup_insert_eq.
  - apply String.eqb_neq in E. now apply lookup_insert_ne.
Qed.

Lemma assoc_last_None n bs : n ∉ map fst bs -> assoc_last n bs = None.
Proof.
  induction bs as [|[a b] bs IH]; intros H; [reflexivity|].
  simpl in *. apply not_elem_of_cons in H as [Hne H]. rewrite (IH H).
  destruct (String.eqb a n) eqn:E; [|reflexivity].
  apply String.eqb_eq in E. congruence.
Qed.


Lemma map_fst_bindings_of sts : map fst (bindings_of sts) = map bound_name sts.
Proof. unfold bindings_of. rewrite map_map. reflexivity. Qed.

Lemma assoc_last_NoDup n b bs :
  NoDup (map fst bs) -> (n, b) ∈ bs -> assoc_last n bs = Some b.
Proof.
  induction bs as [|[a c] bs IH]; intros Hnd Hin.
  - now apply elem_of_nil in Hin.
  - simpl in Hnd. apply NoDup_cons in Hnd as [Ha Hnd]. simpl.
    apply elem_of_cons in Hin as [[= <- <-]|Hin].
    + rewrite (assoc_last_None n bs Ha). now rewrite String.eqb_refl.
    + now rewrite (IH Hnd Hin).
Qed.

Lemma import_names_NoDup : NoDup (map bound_name import_statements).
Proof. apply (bool_decide_unpack _). vm_compute. exact I. Qed.

(** ** Cells that leave the kernel as it is *)

Lemma run_all_md env stop k c r :
  is_code c = false -> run_all env stop k (c :: r) = run_all env stop k r.
Proof. intros H. simpl. now rewrite H. Qed.

Lemma run_all_code env stop k c r :
  is_code c = true ->
  run_all env stop k (c :: r) =
  let '(k1, o) := run_cell env k (source c) in
  if stop && is_error o then (k1, [(cell_id c, o)])
  else let '(k2, os) := run_all env stop k1 r in (k2, (cell_id c, o) :: os).
Proof. intros H. simpl. now rewrite H. Qed.

Lemma run_all_still env stop cs :
  Forall (fun c => still c = true) cs ->
  forall k, run_all env stop k cs = (k, static_run stop cs).
Proof.
  induction 1 as [|c cs Hc _ IH]; intros k; [reflexivity|].
  unfold still in Hc. simpl. destruct (is_code c); simpl in Hc.
  - destruct (inert (source c)) as [o|] eqn:E; [|discriminate Hc].
    rewrite (run_cell_inert env k _ _ E).
    destruct (stop && is_error o); [reflexivity|]. now rewrite IH.
  - apply IH.
Qed.

Lemma run_all_app_kernel env k a b :
  (run_all env false k (a ++ b)).1 = (run_all env false (run_all env false k a).1 b).1.
Proof.
  revert k. induction a as [|c a IH]; intros k; [reflexivity|].
  simpl. destruct (is_code c); [|apply IH].
  destruct (run_cell env k (source c)) as [k1 o]. simpl.
  specialize (IH k1).
  destruct (run_all env false k1 (a ++ b)) as [k2 os].
  destruct (run_all env false k1 a) as [k3 os']. exact IH.
Qed.

Lemma notebook_split :
  notebook = nth 0 notebook empty_cell :: import_cell :: skipn 2 notebook.
Proof. vm_compute. reflexivity. Qed.

Lemma rest_still :
  Forall (fun c => still c = true) (nth 0 notebook empty_cell :: skipn 2 notebook).
Proof. apply Forall_of_forallb. vm_compute. reflexivity. Qed.

Lemma run_all_notebook env stop k :
  run_all env stop k notebook =
  let '(k1, o) := run_cell env k (source import_cell) in
  if stop && is_error o then (k1, [("composed-starter", o)])
  else (k1, ("composed-starter", o) :: static_run stop (skipn 2 notebook)).
Proof.
  transitivity (run_all env stop k (nth 0 notebook empty_cell :: import_cell :: skipn 2 notebook)).
  { f_equal; exact notebook_split. }
  rewrite run_all_md by (vm_compute; reflexivity).
  rewrite run_all_code by (vm_compute; reflexivity).
  destruct (run_cell env k (source import_cell)) as [k1 o].
  change (cell_id import_cell) with "composed-starter".
  destruct (stop && is_error o); [reflexivity|].
  rewrite run_all_still; [reflexivity|].
  pose proof rest_still as H. now inversion H.
Qed.

(** How a cell ends does not depend on the state of the kernel. *)
Lemma exec_lines_outcome env ls k k' :
  (exec_lines env k ls).2 = (exec_lines env k' ls).2.
Proof.
  revert k k'. induction ls as [|[[n l] kind] ls IH]; intros k k'; [reflexivity|].
  destruct kind; simpl; try reflexivity; try apply IH.
  unfold exec_stmt. destruct (import_ok env s); simpl; [apply IH|reflexivity].
Qed.

Lemma run_cell_outcome env src k k' :
  (run_cell env k src).2 = (run_cell env k' src).2.
Proof.
  unfold run_cell. destruct (check (read_cell src)); [reflexivity|].
  apply exec_lines_outcome.
Qed.

Lemma run_all_outcomes env k cs :
  (run_all env false k cs).2 =
  map (fun c => (cell_id c, (run_cell env fresh (source c)).2)) (List.filter is_code cs).
Proof.
  revert k. induction cs as [|c cs IH]; intros k; [reflexivity|].
  simpl. destruct (is_code c); [|apply IH].
  pose proof (run_cell_outcome env (source c) k fresh) as Ho.
  destruct (run_cell env k (source c)) as [k1 o]. simpl in Ho. subst o.
  specialize (IH k1). destruct (run_all env false k1 cs) as [k2 os].
  simpl in *. now rewrite IH.
Qed.

Lemma filter_Permutation_bool {A} (f : A -> bool) (l l' : list A) :
  Permutation l l' -> Permutation (List.filter f l) (List.filter f l').
Proof.
  induction 1 as [|x l l' _ IH|x y l|l l' l'' _ IH1 _ IH2]; simpl.
  - constructor.
  - destruct (f x); [now constructor|exact IH].
  - destruct (f x), (f y); try reflexivity. constructor.
  - now transitivity (List.filter f l').
Qed.

(** ** Further properties of the cells *)

(** X1: when every import of the cell [composed-starter] succeeds, the cell
    ends well; each of its thirteen names is then bound to its module or
    module member whatever it was bound to before ([c] to
    astropy.constants, [signal] to scipy.signal, and so on); and the
    thirteen imports are attempted once each, in the order of the cell. *)
Theorem X1_import_cell_binds_thirteen_names (env : environment) (k : kernel) :
  forallb (import_ok env) import_statements = true ->
  (run_cell env k (source import_cell)).2 = Done
  /\ Forall (fun '(n, b) => ns (run_cell env k (source import_cell)).1 !! n = Some b)
       [("u", BoundModule ["astropy"; "units"]);
        ("c", BoundModule ["astropy"; "constants"]);
        ("np", BoundModule ["numpy"]);
        ("plt", BoundModule ["matplotlib"; "pyplot"]);
        ("tqdm", BoundAttr ["tqdm"] "tqdm");
        ("signal", BoundAttr ["scipy"] "signal");
        ("integrate", BoundAttr ["scipy"] "integrate");
        ("fftpack", BoundAttr ["scipy"] "fftpack");
        ("optimize", BoundAttr ["scipy"] "optimize");
        ("ndimage", BoundAttr ["scipy"] "ndimage");
        ("dispersion", BoundAttr ["plasmapy"] "dispersion");
        ("formulary", BoundAttr ["plasmapy"] "formulary");
        ("simulation", BoundAttr ["plasmapy"] "simulation")]
  /\ trace (run_cell env k (source import_cell)).1 =
     trace k ++
       [EvImport ["astropy"; "units"]; EvImport ["astropy"; "constants"];
        EvImport ["numpy"]; EvImport ["matplotlib"; "pyplot"]; EvImport ["tqdm"];
        EvImport ["scipy"]; EvImport ["scipy"]; EvImport ["scipy"];
        EvImport ["scipy"]; EvImport ["scipy"]; EvImport ["plasmapy"];
        EvImport ["plasmapy"]; EvImport ["plasmapy"]].
Proof.
  intros Hok. rewrite run_import_cell.
  destruct (all_succeed env import_statements Hok) as (-> & -> & ->).
  split; [reflexivity|]. split; [|reflexivity].
  cbn [fst ns]. repeat (constructor; [rewrite lookup_bind_all; reflexivity|]).
  constructor.
Qed.

Lemma X1_import_cell_binds_thirteen_names_witness :
  forallb (import_ok all_installed) import_statements = true
  /\ (run_cell all_installed fresh (source import_cell)).2 = Done.
Proof.
  assert (H : forallb (import_ok all_installed) import_statements = true) by reflexivity.
  split; [exact H|].
  exact (proj1 (X1_import_cell_binds_thirteen_names all_installed fresh H)).
Defined.

(** X2: the first import of the cell [composed-starter] that fails ends the
    cell in an ImportError of that statement; the names of the statements
    before it are bound, the name of the failing statement and those of
    the statements after it are as they were before the cell ran, and no
    import after the failing one is attempted. *)
Theorem X2_import_cell_stops_at_first_failure
    (env : environment) (k : kernel) (pre : list stmt) (st : stmt) (post : list stmt) :
  import_statements = pre ++ st :: post ->
  forallb (import_ok env) pre = true ->
  import_ok env st = false ->
  (run_cell env k (source import_cell)).2 = ImportError st
  /\ Forall (fun s => ns (run_cell env k (source import_cell)).1 !! bound_name s
                      = Some (binding_of s)) pre
  /\ Forall (fun s => ns (run_cell env k (source import_cell)).1 !! bound_name s
                      = ns k !! bound_name s) (st :: post)
  /\ trace (run_cell env k (source import_cell)).1
     = trace k ++ import_events (pre ++ [st]).
Proof.
  intros Heq Hpre Hst. rewrite run_import_cell, Heq.
  destruct (first_fails env pre st post Hpre Hst) as (-> & -> & ->).
  pose proof import_names_NoDup as Hnd. rewrite Heq, map_app in Hnd.
  apply NoDup_app in Hnd as (Hpre_nd & Hdisj & _).
  split; [reflexivity|]. split; [|split; [|reflexivity]]; cbn [fst ns].
  - apply Forall_forall. intros s Hs. rewrite lookup_bind_all.
    rewrite (assoc_last_NoDup (bound_name s) (binding_of s)); [reflexivity| |].
    + now rewrite map_fst_bindings_of.
    + unfold bindings_of. apply list_elem_of_fmap. now exists s.
  - apply Forall_forall. intros s Hs. rewrite lookup_bind_all.
    rewrite assoc_last_None; [reflexivity|].
    rewrite map_fst_bindings_of. intros Hin. apply (Hdisj _ Hin).
    change (bound_name s ∈ bound_name <$> (st :: post)).
    apply list_elem_of_fmap. now exists s.
Qed.

Lemma X2_import_cell_stops_at_first_failure_witness :
  import_statements
  = firstn 10 import_statements ++ FromImport ["plasmapy"] "dispersion" None
      :: skipn 11 import_statements
  /\ forallb (import_ok no_plasmapy) (firstn 10 import_statements) = true
  /\ import_ok no_plasmapy (FromImport ["plasmapy"] "dispersion" None) = false
  /\ (run_cell no_plasmapy fresh (source import_cell)).2
     = ImportError (FromImport ["plasmapy"] "dispersion" None).
Proof.
  assert (H1 : import_statements
               = firstn 10 import_statements ++ FromImport ["plasmapy"] "dispersion" None
                   :: skipn 11 import_statements) by reflexivity.
  assert (H2 : forallb (import_ok no_plasmapy) (firstn 10 import_statements) = true)
    by reflexivity.
  assert (H3 : import_ok no_plasmapy (FromImport ["plasmapy"] "dispersion" None) = false)
    by reflexivity.
  split; [exact H1|]. split; [exact H2|]. split; [exact H3|].
  exact (proj1 (X2_import_cell_stops_at_first_failure no_plasmapy fresh _ _ _ H1 H2 H3)).
Defined.


Lemma static_rest_stop :
  static_run true (skipn 2 notebook) =
  [("protective-shopping", Done); ("ideal-holly", Done); ("bfa91d73", SyntaxError 8)].
Proof. vm_compute. reflexivity. Qed.

(** X4: the order in which the cells are run does not matter when the
    reader runs them one by one without stopping at failures: for every
    reordering of the fifteen cells, whatever is installed and whatever the
    kernel held, the kernel ends as after running the import cell alone,
    and every cell ends as it does in the order of the file. *)
Theorem X4_order_of_cells_does_not_matter
    (env : environment) (k : kernel) (cs : list cell) :
  Permutation cs notebook ->
  (run_all env false k cs).1 = (run_cell env k (source import_cell)).1
  /\ Permutation (run_all env false k cs).2 (run_all env false k notebook).2.
Proof.
  intros HP. split.
  - assert (Hin : In import_cell cs).
    { apply (Permutation_in _ (Permutation_sym HP)). vm_compute. tauto. }
    apply in_split in Hin as (pre & post & ->).
    rewrite notebook_split in HP.
    change (nth 0 notebook empty_cell :: import_cell :: skipn 2 notebook)
      with ([nth 0 notebook empty_cell] ++ import_cell :: skipn 2 notebook) in HP.
    apply Permutation_app_inv in HP.
    pose proof (Permutation_Forall (Permutation_sym HP) rest_still) as Hs.
    apply Forall_app in Hs as [Hpre Hpost].
    rewrite run_all_app_kernel, (run_all_still env false pre Hpre k).
    cbn [fst]. rewrite run_all_code by (vm_compute; reflexivity).
    destruct (run_cell env k (source import_cell)) as [k1 o].
    cbn [andb]. now rewrite (run_all_still env false post Hpost k1).
  - rewrite !run_all_outcomes. apply Permutation_map.
    now apply filter_Permutation_bool.
Qed.

Lemma X4_order_of_cells_does_not_matter_witness :
  Permutation (rev notebook) notebook
  /\ (run_all all_installed false fresh (rev notebook)).1
     = (run_cell all_installed fresh (source import_cell)).1.
Proof.
  assert (H : Permutation (rev notebook) notebook)
    by apply Permutation_sym, Permutation_rev.
  split; [exact H|].
  exact (proj1 (X4_order_of_cells_does_not_matter all_installed fresh (rev notebook) H)).
Defined.

(** X5: Run All (the run ends at the first cell that fails) never reaches
    the last two code cells, [instant-constitutional] and
    [mighty-logistics]. Whatever is installed and whatever the kernel
    held: if an import fails the run ends at the import cell with that
    ImportError, otherwise it ends at cell [bfa91d73] with the SyntaxError;
    either way the kernel is left as by the import cell alone. *)
Theorem X5_run_all_never_reaches_last_cells (env : environment) (k : kernel) :
  (run_all env true k notebook).1 = (run_cell env k (source import_cell)).1
  /\ ((forallb (import_ok env) import_statements = true
       /\ (run_all env true k notebook).2 =
          [("composed-starter", Done); ("protective-shopping", Done);
           ("ideal-holly", Done); ("bfa91d73", SyntaxError 8)])
      \/ (exists st, In st import_statements /\ import_ok env st = false
                     /\ (run_all env true k notebook).2
                        = [("composed-starter", ImportError st)]))
  /\ ~ In "instant-constitutional" (map fst (run_all env true k notebook).2)
  /\ ~ In "mighty-logistics" (map fst (run_all env true k notebook).2).
Proof.
  rewrite run_all_notebook, run_import_cell, static_rest_stop.
  destruct (first_failure env import_statements) as [st|] eqn:E; cbv beta iota.
  - cbn [is_error andb fst snd map]. split; [reflexivity|]. split.
    + right. exists st. apply find_some in E as [Hin Hno].
      apply negb_true_iff in Hno. auto.
    + split; intros [H|[]]; discriminate H.
  - cbn [is_error andb fst snd map]. split; [reflexivity|]. split.
    + left. split; [|reflexivity]. apply forallb_forall. intros st Hin.
      pose proof (find_none _ _ E st Hin) as Hno. now apply negb_false_iff in Hno.
    + split; intros H; repeat (destruct H as [H|H]; [discriminate H|]); exact H.
Qed.
